(** * Legal letter generator: the retrieval pipeline

    A shallow embedding of [backend/app/pdf_processor.py] and
    [backend/app/rag_system.py], and the properties of the section
    extractor, the chunk corpus, the vector store and the generation
    gateway that the specification states about them; then of the letter
    generator of [backend/app/letter_generator.py] and of the start-up and
    the endpoints of [backend/app/main.py], with further properties read
    off the code.

    Python objects that are mutated or shared (the chunk dictionaries, the
    instance fields, the files on disk, the log) live in an explicit
    program state threaded by a state-and-exception monad.  Third-party
    routines (the sentence encoder, the language model, the text splitter,
    the flat L2 index) are outside the repository; each is either a
    parameter of the development or a definition whose comment says what
    it is modelled from. *)

From Stdlib Require Import ZArith String Ascii List Lia Bool Sorted DecimalString.
From stdpp Require Import base option list sorting gmap strings.

Open Scope string_scope.
Open Scope list_scope.
Open Scope Z_scope.

(** ** Python strings

    Text is a sequence of 8-bit code points (Latin-1); the character classes
    are those of [str.strip] and [str.isupper] on that range. *)
Module Py.

Definition code (c : ascii) : nat := nat_of_ascii c.

Definition between (lo hi n : nat) : bool := (lo <=? n)%nat && (n <=? hi)%nat.

(** Whitespace as [str.strip()] sees it. *)
Definition isspace (c : ascii) : bool :=
  let n := code c in
  between 9 13 n || between 28 32 n || (n =? 133)%nat || (n =? 160)%nat.

(** Characters with the [Uppercase] property. *)
Definition isupper_char (c : ascii) : bool :=
  let n := code c in
  between 65 90 n || between 192 214 n || between 216 222 n.

(** Characters with the [Lowercase] property. *)
Definition islower_char (c : ascii) : bool :=
  let n := code c in
  between 97 122 n || (n =? 170)%nat || (n =? 181)%nat || (n =? 186)%nat
  || between 223 246 n || between 248 255 n.

Fixpoint all_chars (p : ascii -> bool) (s : string) : bool :=
  match s with
  | EmptyString => true
  | String c r => p c && all_chars p r
  end.

Fixpoint any_char (p : ascii -> bool) (s : string) : bool :=
  match s with
  | EmptyString => false
  | String c r => p c || any_char p r
  end.

(** [s.isupper()]: at least one cased character and no lowercase one. *)
Definition isupper (s : string) : bool :=
  any_char isupper_char s && negb (any_char islower_char s).

(** Truth value of a string: [if s] holds for the non-empty ones. *)
Definition truthy (s : string) : bool :=
  match s with EmptyString => false | String _ _ => true end.

Definition len (s : string) : Z := Z.of_nat (String.length s).

Fixpoint lstrip (s : string) : string :=
  match s with
  | EmptyString => EmptyString
  | String c r => if isspace c then lstrip r else s
  end.

Definition rstrip (s : string) : string := String.rev (lstrip (String.rev s)).

Definition strip (s : string) : string := rstrip (lstrip s).

Definition startswith (s p : string) : bool := String.prefix p s.

(** [s.split('\n')]: the pieces between line feeds, [""] giving [[""]]. *)
Fixpoint split_go (cur : string) (s : string) : list string :=
  match s with
  | EmptyString => [String.rev cur]
  | String c r =>
      if Ascii.eqb c "010"%char then String.rev cur :: split_go EmptyString r
      else split_go (String c cur) r
  end.

Definition split_lines (s : string) : list string := split_go EmptyString s.

(** [str(n)] for a non-negative integer. *)
Definition str_nat (n : nat) : string := NilEmpty.string_of_uint (Nat.to_uint n).

(** [sep.join(l)]. *)
Fixpoint join (sep : string) (l : list string) : string :=
  match l with
  | [] => EmptyString
  | [x] => x
  | x :: r => x +:+ sep +:+ join sep r
  end.

(** [l[i]] with Python's negative indices; [None] is [IndexError]. *)
Definition index {A} (l : list A) (i : Z) : option A :=
  let n := Z.of_nat (length l) in
  if 0 <=? i then l !! Z.to_nat i
  else if - n <=? i then l !! Z.to_nat (n + i)
  else None.

End Py.

(** ** The section extractor ([pdf_processor.py]) *)
Module PDFProcessor.

Record page_data := { pd_page_number : Z; pd_content : string }.

Record section := { section_title : string; content : string; page_number : Z }.

(** The three locals of [extract_sections]. *)
Record locals := {
  sections : list section;
  current_section : string;
  current_content : string
}.

Definition initial : locals :=
  {| sections := []; current_section := ""; current_content := "" |}.

(** [extract_text_by_pages] over the page texts of the opened document:
    page [i] of the document gets number [i + 1]. *)
Definition extract_text_by_pages (document : list string) : list page_data :=
  imap (fun i text => {| pd_page_number := Z.of_nat i + 1; pd_content := text |})
       document.

(** The header test of lines 63-66; [and] binds tighter than [or]. *)
Definition is_header (line : string) : bool :=
  Py.startswith line "Section" || Py.startswith line "Article"
  || Py.startswith line "Chapter"
  || (Py.isupper line && (Py.len line <? 100)).

Definition save_previous (page : Z) (st : locals) : list section :=
  if Py.truthy (current_section st) && Py.truthy (current_content st)
  then sections st ++ [ {| section_title := current_section st;
                           content := Py.strip (current_content st);
                           page_number := page |} ]
  else sections st.

(** One iteration of the inner loop (lines 57-79). *)
Definition step_line (page : Z) (st : locals) (raw : string) : locals :=
  let line := Py.strip raw in
  if negb (Py.truthy line) then st
  else if is_header line then
    {| sections := save_previous page st;
       current_section := line;
       current_content := "" |}
  else
    {| sections := sections st;
       current_section := current_section st;
       current_content := current_content st +:+ line +:+ " " |}.

(** One iteration of the outer loop (lines 53-79). *)
Definition step_page (st : locals) (pd : page_data) : locals :=
  fold_left (step_line (pd_page_number pd)) (Py.split_lines (pd_content pd)) st.

Definition last_page_number (pages : list page_data) : Z :=
  match last pages with
  | Some pd => pd_page_number pd
  | None => 1
  end.

Definition extract_sections (document : list string) : list section :=
  let pages_data := extract_text_by_pages document in
  let st := fold_left step_page pages_data initial in
  save_previous (last_page_number pages_data) st.

(** The lines of the document in reading order, each with its page. *)
Definition tagged_lines (pages : list page_data) : list (Z * string) :=
  flat_map (fun pd => map (fun raw => (pd_page_number pd, raw))
                          (Py.split_lines (pd_content pd))) pages.

Definition step_tagged (st : locals) (l : Z * string) : locals :=
  step_line (fst l) st (snd l).

(** A line that opens no section: blank, or body text. *)
Definition opens_nothing (l : Z * string) : Prop :=
  is_header (Py.strip (snd l)) = false.

(** The extractor run over the lines alone. *)
Definition extract_from_lines (last_page : Z) (lines : list (Z * string))
    : list section :=
  save_previous last_page (fold_left step_tagged lines initial).

(** What the loop maintains: every saved section has a header for title
    and a body, the open title is a header, the open body is not blank. *)
Definition emitted_ok (s : section) : Prop :=
  section_title s <> "" /\ is_header (section_title s) = true /\ content s <> "".

Definition locals_ok (st : locals) : Prop :=
  Forall emitted_ok (sections st)
  /\ (current_section st = "" \/ is_header (current_section st) = true)
  /\ (current_content st = "" \/ Py.strip (current_content st) <> "").

(** Two runs that differ only in text gathered under no title. *)
Definition same_output (a b : locals) : Prop :=
  a = b \/ (sections a = sections b /\ current_section a = ""
            /\ current_section b = "").

End PDFProcessor.

(** ** The chunker

    [RAGSystem.__init__] configures langchain's
    [RecursiveCharacterTextSplitter]; its code is not part of the
    repository. *)
Module Splitter.

Definition div_ceil (a b : nat) : nat := ((a + b - 1) / b)%nat.

(** Number of windows over a body of [n] characters: none for an empty
    body, one when the first window already reaches the end, otherwise one
    per step until a window reaches the end. *)
Definition window_count (chunk_size step n : nat) : nat :=
  if (n =? 0)%nat then 0%nat
  else if (n <=? chunk_size)%nat then 1%nat
  else S (div_ceil (n - chunk_size) step).

(** The preferred break inside a full window [w]: a non-empty prefix of
    it.  [prefer w] is the length the boundary preference asks for; it is
    used when it lies inside the window. *)
Definition break_at (prefer : string -> nat) (w : string) : string :=
  let b := prefer w in
  if (1 <=? b)%nat && (b <=? String.length w)%nat then substring 0 b w else w.

(** Modelled from the spec: the chunker of section 4.2, whose code (the
    splitter class of langchain) is missing from the sources.  "A sliding
    window of chunk_size characters advancing by chunk_size - chunk_overlap
    characters per step, preferring to break at whitespace/sentence
    boundaries near the window edge when possible.  Final partial window
    (shorter than chunk_size) is kept if non-empty."  The boundary
    preference is left open by the spec and is the parameter [prefer]; the
    last window, which reaches the end of the body, is kept whole. *)
Definition split_text (prefer : string -> nat) (chunk_size chunk_overlap : nat)
    (body : string) : list string :=
  let step := (chunk_size - chunk_overlap)%nat in
  let n := window_count chunk_size step (String.length body) in
  map (fun i =>
         let w := substring (i * step) chunk_size body in
         if (S i =? n)%nat then w else break_at prefer w)
      (seq 0 n).

End Splitter.

(** ** Exceptions, external collaborators and the program state *)

Inductive exn :=
| ValueError (msg : string)
| IndexError (msg : string)
| TypeError (msg : string)
| ReferenceError (msg : string)
| FileExistsError (msg : string)
| FileNotFoundError (msg : string)
| RuntimeError (msg : string)
| UnpicklingError (msg : string)
| APIError (msg : string)
| AssertionError (msg : string).

(** [str(e)]. *)
Definition str_exn (e : exn) : string :=
  match e with
  | ValueError m | IndexError m | TypeError m | ReferenceError m
  | FileExistsError m | FileNotFoundError m | RuntimeError m
  | UnpicklingError m | APIError m | AssertionError m => m
  end.

(** What the pipeline consumes from outside the repository.  Distances are
    float32 values; only their order matters here, and a finite float32 is
    represented by its rank in [Z]. *)
Class External := {
  (** an embedding vector *)
  vec : Type;
  (** [SentenceTransformer.encode] on one text; a batch is encoded text by
      text, in order *)
  encode : string -> vec;
  (** squared Euclidean distance between two stored vectors *)
  fvec_L2sqr : vec -> vec -> Z;
  (** the largest finite float32 *)
  FLT_MAX : Z;
  (** [RecursiveCharacterTextSplitter.split_text] *)
  split_text : string -> list string;
  (** what [ChatOpenAI.invoke] returns *)
  response : Type;
  (** [ChatOpenAI.invoke]: a response, or the exception it raises *)
  llm_invoke : string -> exn + response
}.

(** The flat L2 index of faiss. *)
Module Faiss.
Section Index.
Context {E : External}.

(** [IndexFlatL2]: the stored vectors, slot [i] holding the [i]-th added. *)
Record IndexFlatL2 := { xb : list vec }.

Definition empty_index : IndexFlatL2 := {| xb := [] |}.

Definition ntotal (index : IndexFlatL2) : nat := length (xb index).

Definition add (index : IndexFlatL2) (x : list vec) : IndexFlatL2 :=
  {| xb := xb index ++ x |}.

(** A search hit: (distance, label). *)
Definition hit : Type := Z * Z.

Definition scan (index : IndexFlatL2) (x : vec) : list hit :=
  imap (fun j y => (fvec_L2sqr x y, Z.of_nat j)) (xb index).

Definition hit_leb (a b : hit) : bool :=
  (fst a <? fst b) || ((fst a =? fst b) && (snd a <=? snd b)).

Fixpoint insert_hit (h : hit) (l : list hit) : list hit :=
  match l with
  | [] => [h]
  | x :: r => if hit_leb h x then h :: x :: r else x :: insert_hit h r
  end.

(** The order of the ranking, as a relation. *)
Definition hit_le (a b : hit) : Prop :=
  fst a < fst b \/ (fst a = fst b /\ snd a <= snd b).

(** Modelled from the spec: the ranking of section 4.4, "ascending by
    distance, ties broken by lower slot index"; the exhaustive scan of the
    library is missing from the sources. *)
Definition rank (l : list hit) : list hit := foldr insert_hit [] l.

(** The search of the library for one query vector: the pairs
    [(distances[0][i], indices[0][i])].  faiss is a third-party library;
    by its documented contract the result always has [k] positions, the
    nearest stored vectors first, and when fewer than [k] vectors are
    stored the remaining positions carry label [-1] and the largest
    float. *)
Definition knn (index : IndexFlatL2) (x : vec) (k : nat) : list hit :=
  let best := take k (rank (scan index x)) in
  best ++ replicate (k - length best) (FLT_MAX, -1).

(** [index.search(x, k)] as Python calls it: the wrapper of the library
    checks [assert k > 0] before it searches. *)
Definition search (index : IndexFlatL2) (x : vec) (k : nat)
    : exn + list hit :=
  if (0 <? k)%nat then inr (knn index x k) else inl (AssertionError "").

End Index.
End Faiss.

Module RAG.

(** A reference to a dictionary object. *)
Definition loc : Type := nat.

Inductive level := INFO | ERROR.

Inductive outcome (A : Type) :=
| Return (a : A)
| Raise (e : exn).
Arguments Return {A} a.
Arguments Raise {A} e.

(** What [generate_response] hands back: the model's response object, or
    a plain string. *)
Inductive text (R : Type) :=
| Response (r : R)
| Str (s : string).
Arguments Response {R} r.
Arguments Str {R} s.

(** A chunk dictionary: the four keys written by [process_documents], and
    [similarity_score], present only in search results. *)
Record document := {
  content : string;
  section_title : string;
  page_number : Z;
  chunk_id : string;
  similarity_score : option Z
}.

Section Monad.
Context {E : External}.

(** A file, by what it deserialises to: [faiss.write_index] and
    [pickle.dump] are taken to be read back unchanged by
    [faiss.read_index] and [pickle.load].  An index file holds an index,
    or the four bytes by which faiss marks a missing one. *)
Inductive file :=
| IndexFile (index : option Faiss.IndexFlatL2)
| PickleFile (docs : list document)
| OtherFile (bytes : string).

(** The instance fields [self.vector_store] and [self.documents], the
    dictionary objects, the disk and the log. *)
Record state := {
  vector_store : option Faiss.IndexFlatL2;
  documents : list loc;
  heap : list document;
  dirs : gset string;
  files : gmap string file;
  log : list (level * string)
}.

(** Computations that read and write the state and may raise. *)
Definition M (A : Type) : Type := state -> outcome A * state.

Definition ret {A} (a : A) : M A := fun s => (Return a, s).

Definition raise {A} (e : exn) : M A := fun s => (Raise e, s).

Definition bind {A B} (m : M A) (f : A -> M B) : M B :=
  fun s => match m s with
           | (Return a, s') => f a s'
           | (Raise e, s') => (Raise e, s')
           end.

(** [try: m except Exception as e: handler e]; what [m] wrote before
    raising stays written. *)
Definition try_except {A} (m : M A) (handler : exn -> M A) : M A :=
  fun s => match m s with
           | (Return a, s') => (Return a, s')
           | (Raise e, s') => handler e s'
           end.

Definition gets {A} (f : state -> A) : M A := fun s => (Return (f s), s).

Definition modify (f : state -> state) : M unit := fun s => (Return tt, f s).

End Monad.

Notation "'let*' x ':=' m 'in' k" := (bind m (fun x => k))
  (at level 10, x name, m at level 100, k at level 200).
Notation "m1 ';;' m2" := (bind m1 (fun _ => m2))
  (at level 100, m2 at level 200, right associativity).

Section Operations.
Context {E : External}.

Fixpoint foldM {A B} (f : B -> A -> M B) (l : list A) (b : B) : M B :=
  match l with
  | [] => ret b
  | x :: r => let* b' := f b x in foldM f r b'
  end.

Fixpoint mapM {A B} (f : A -> M B) (l : list A) : M (list B) :=
  match l with
  | [] => ret []
  | x :: r => let* y := f x in let* ys := mapM f r in ret (y :: ys)
  end.

(** *** Fields, objects, log *)

Definition set_vector_store (v : option Faiss.IndexFlatL2) : M unit :=
  modify (fun s => {| vector_store := v; documents := documents s;
                      heap := heap s; dirs := dirs s; files := files s;
                      log := log s |}).

Definition set_documents (d : list loc) : M unit :=
  modify (fun s => {| vector_store := vector_store s; documents := d;
                      heap := heap s; dirs := dirs s; files := files s;
                      log := log s |}).

Definition set_heap (h : list document) (s : state) : state :=
  {| vector_store := vector_store s; documents := documents s;
     heap := h; dirs := dirs s; files := files s; log := log s |}.

(** A new dictionary object. *)
Definition alloc (d : document) : M loc :=
  fun s => (Return (length (heap s)), set_heap (heap s ++ [d]) s).

(** Reading through a reference; a reference always denotes a live
    object in Python, the error branch is unreachable from well-formed
    states. *)
Definition deref (l : loc) : M document :=
  fun s => match heap s !! l with
           | Some d => (Return d, s)
           | None => (Raise (ReferenceError "dangling reference"), s)
           end.

(** [d.copy()]: a new dictionary with the same items. *)
Definition copy (l : loc) : M loc :=
  let* d := deref l in alloc d.

(** [d["similarity_score"] = x], in place. *)
Definition set_similarity_score (l : loc) (x : Z) : M unit :=
  let* d := deref l in
  modify (fun s => set_heap (<[l := {| content := content d;
                                       section_title := section_title d;
                                       page_number := page_number d;
                                       chunk_id := chunk_id d;
                                       similarity_score := Some x |}]>
                             (heap s)) s).

Definition logger (lv : level) (msg : string) : M unit :=
  modify (fun s => {| vector_store := vector_store s; documents := documents s;
                      heap := heap s; dirs := dirs s; files := files s;
                      log := log s ++ [(lv, msg)] |}).

(** *** The disk *)

(** [os.makedirs(path, exist_ok=True)]. *)
Definition makedirs (path : string) : M unit :=
  let* fs := gets files in
  match fs !! path with
  | Some _ => raise (FileExistsError path)
  | None =>
      modify (fun s => {| vector_store := vector_store s;
                          documents := documents s; heap := heap s;
                          dirs := {[ path ]} ∪ dirs s; files := files s;
                          log := log s |})
  end.

Definition write_file (path : string) (f : file) : M unit :=
  modify (fun s => {| vector_store := vector_store s; documents := documents s;
                      heap := heap s; dirs := dirs s;
                      files := <[path := f]> (files s); log := log s |}).

(** [faiss.write_index(index, path)]; for [None] the library writes the
    marker of a missing index and returns. *)
Definition write_index (v : option Faiss.IndexFlatL2) (path : string) : M unit :=
  write_file path (IndexFile v).

(** [faiss.read_index(path)]; the marker of a missing index is read back
    as [None]. *)
Definition read_index (path : string) : M (option Faiss.IndexFlatL2) :=
  let* fs := gets files in
  match fs !! path with
  | Some (IndexFile index) => ret index
  | Some _ => raise (RuntimeError path)
  | None => raise (RuntimeError path)
  end.

(** [pickle.dump(documents, f)]: the dictionaries are written by value. *)
Definition pickle_dump (docs : list loc) (path : string) : M unit :=
  let* ds := mapM deref docs in
  write_file path (PickleFile ds).

(** [pickle.load(f)] on [open(path, "rb")]: new objects for what was
    written. *)
Definition pickle_load (path : string) : M (list loc) :=
  let* fs := gets files in
  match fs !! path with
  | Some (PickleFile ds) => mapM alloc ds
  | Some _ => raise (UnpicklingError path)
  | None => raise (FileNotFoundError path)
  end.

(** *** [RAGSystem] *)

Definition chunk_size : nat := 1000.
Definition chunk_overlap : nat := 200.

(** The dictionary built at lines 39-44. *)
Definition chunk_record (section : PDFProcessor.section) (i : nat)
    (chunk : string) : document :=
  {| content := chunk;
     section_title := PDFProcessor.section_title section;
     page_number := PDFProcessor.page_number section;
     chunk_id := PDFProcessor.section_title section +:+ "_" +:+ Py.str_nat i;
     similarity_score := None |}.

Definition enumerate {A} (l : list A) : list (nat * A) :=
  imap (fun i x => (i, x)) l.

Definition process_documents (sections : list PDFProcessor.section)
    : M (list loc) :=
  let* all_chunks :=
    foldM (fun all_chunks section =>
             let chunks := split_text (PDFProcessor.content section) in
             foldM (fun all_chunks ic =>
                      let* d := alloc (chunk_record section (fst ic) (snd ic)) in
                      ret (all_chunks ++ [d]))
                   (enumerate chunks) all_chunks)
          sections [] in
  set_documents all_chunks ;;
  logger INFO ("Processed " +:+ Py.str_nat (length all_chunks)
               +:+ " document chunks") ;;
  ret all_chunks.

Definition create_vector_store : M unit :=
  let* docs := gets documents in
  match docs with
  | [] => raise (ValueError "No documents processed. Call process_documents first.")
  | _ =>
      let* texts := mapM (fun doc => let* d := deref doc in ret (content d)) docs in
      let embeddings := map encode texts in
      set_vector_store (Some (Faiss.add Faiss.empty_index embeddings)) ;;
      logger INFO ("Created FAISS vector store with "
                   +:+ Py.str_nat (length texts) +:+ " documents")
  end.

Definition save_vector_store (path : string) : M unit :=
  makedirs path ;;
  let* v := gets vector_store in
  write_index v (path +:+ "/faiss_index") ;;
  let* docs := gets documents in
  pickle_dump docs (path +:+ "/documents.pkl") ;;
  logger INFO ("Vector store saved to " +:+ path).

Definition load_vector_store (path : string) : M bool :=
  try_except
    (let* index := read_index (path +:+ "/faiss_index") in
     set_vector_store index ;;
     let* docs := pickle_load (path +:+ "/documents.pkl") in
     set_documents docs ;;
     logger INFO ("Vector store loaded from " +:+ path) ;;
     ret true)
    (fun e =>
       logger ERROR ("Error loading vector store: " +:+ str_exn e) ;;
       ret false).

(** One iteration of the loop at lines 112-116. *)
Definition collect (results : list loc) (h : Faiss.hit) : M (list loc) :=
  let idx := snd h in
  let* docs := gets documents in
  if idx <? Z.of_nat (length docs) then
    match Py.index docs idx with
    | None => raise (IndexError "list index out of range")
    | Some d =>
        let* doc := copy d in
        set_similarity_score doc (fst h) ;;
        ret (results ++ [doc])
    end
  else ret results.

Definition similarity_search (query : string) (k : nat) : M (list loc) :=
  let* v := gets vector_store in
  match v with
  | None => raise (ValueError "Vector store not initialized")
  | Some index =>
      let query_embedding := encode query in
      match Faiss.search index query_embedding k with
      | inl e => raise e
      | inr hits => foldM collect hits []
      end
  end.

Definition nl : string := String "010" "".

Definition indent : string := "        ".

Definition context_block (d : document) : string :=
  "Section: " +:+ section_title d +:+ nl +:+ "Content: " +:+ content d.

Definition prompt_of (context query : string) : string :=
  nl +:+ indent
  +:+ "Based on the following legal context, provide a detailed response to the query."
  +:+ nl +:+ indent +:+ nl +:+ indent +:+ "Legal Context:"
  +:+ nl +:+ indent +:+ context
  +:+ nl +:+ indent +:+ nl +:+ indent +:+ "Query: " +:+ query
  +:+ nl +:+ indent +:+ nl +:+ indent
  +:+ "Please provide a comprehensive legal analysis based on the provided context."
  +:+ nl +:+ indent.

Definition generate_response (query : string) (context_docs : list loc)
    : M (text response) :=
  let* blocks := mapM (fun doc => let* d := deref doc in ret (context_block d))
                      context_docs in
  let context := Py.join (nl +:+ nl) blocks in
  let prompt := prompt_of context query in
  try_except
    (match llm_invoke prompt with
     | inr response => ret (Response response)
     | inl e => raise e
     end)
    (fun e =>
       logger ERROR ("Error generating LLM response: " +:+ str_exn e) ;;
       ret (Str "Error generating response")).

(** The initial fields of an instance (lines 22-23) in a world with the
    given objects, disk and log. *)
Definition init (h : list document) (d : gset string) (f : gmap string file)
    (l : list (level * string)) : state :=
  {| vector_store := None; documents := []; heap := h;
     dirs := d; files := f; log := l |}.

(** *** Vocabulary of the properties *)

(** The splitter as [__init__] configures it, over the chunker of the
    spec. *)
Definition text_splitter (prefer : string -> nat) : string -> list string :=
  Splitter.split_text prefer chunk_size chunk_overlap.

(** The chunk records of a section sequence, in section order and, inside a
    section, in chunk order. *)
Definition chunks_of (sections : list PDFProcessor.section) : list document :=
  flat_map (fun section =>
              imap (chunk_record section)
                   (split_text (PDFProcessor.content section)))
           sections.

(** The stored corpus, read through the references: [ds] are the
    dictionaries [self.documents] points to. *)
Definition corpus (s : state) (ds : list document) : Prop :=
  Forall2 (fun l d => heap s !! l = Some d) (documents s) ds.

Definition with_score (x : Z) (d : document) : document :=
  {| content := content d; section_title := section_title d;
     page_number := page_number d; chunk_id := chunk_id d;
     similarity_score := Some x |}.

(** The dictionaries the loop at lines 112-116 appends for the given hits,
    and the exception that stops it, if any. *)
Fixpoint resolve_hits (ds : list document) (hits : list Faiss.hit)
    : list document * option exn :=
  match hits with
  | [] => ([], None)
  | h :: r =>
      if snd h <? Z.of_nat (length ds) then
        match Py.index ds (snd h) with
        | None => ([], Some (IndexError "list index out of range"))
        | Some d => let (rs, e) := resolve_hits ds r in
                    (with_score (fst h) d :: rs, e)
        end
      else resolve_hits ds r
  end.

(** What a caller sees of a search: the dictionaries behind the returned
    references, or the exception. *)
Definition observe (r : outcome (list loc) * state)
    : outcome (list (option document)) :=
  match r with
  | (Return locs, s') => Return (map (fun l => heap s' !! l) locs)
  | (Raise e, _) => Raise e
  end.

(** The slot a label denotes among [n] chunks, with Python's negative
    indices. *)
Definition slot_of (n : nat) (h : Faiss.hit) : nat :=
  if snd h <? 0 then Z.to_nat (Z.of_nat n + snd h) else Z.to_nat (snd h).


End Operations.
End RAG.

(** ** The extractor, line by line

    What [extract_sections] computes, written by recursion on the lines of
    the document; the properties relate the loop of the source to it. *)
Module Reading.
Import PDFProcessor.

(** A string that neither starts nor ends with whitespace. *)
Definition first_visible (s : string) : Prop :=
  match s with
  | EmptyString => True
  | String c _ => Py.isspace c = false
  end.

Definition last_visible (s : string) : Prop := first_visible (String.rev s).

Definition trimmed (s : string) : Prop := first_visible s /\ last_visible s.

(** A body line as the loop appends it: stripped, and not empty. *)
Definition body_line (l : string) : Prop := trimmed l /\ l <> "".

(** The text gathered from body lines by line 79. *)
Definition gathered (body : list string) : string :=
  foldr (fun l acc => l +:+ " " +:+ acc) "" body.

(** The section saved for a title and its body lines, if any. *)
Definition emit (title : string) (body : list string) (page : Z) : list section :=
  match title, body with
  | String _ _, _ :: _ =>
      [ {| section_title := title; content := Py.join " " body;
           page_number := page |} ]
  | _, _ => []
  end.

(** The sections of the lines that follow, for the title and body lines
    read so far. *)
Fixpoint sections_from (title : string) (body : list string) (last_page : Z)
    (lines : list (Z * string)) : list section :=
  match lines with
  | [] => emit title body last_page
  | l :: rest =>
      let line := Py.strip (snd l) in
      if negb (Py.truthy line) then sections_from title body last_page rest
      else if is_header line then
        emit title body (fst l) ++ sections_from line [] last_page rest
      else sections_from title (body ++ [line]) last_page rest
  end.

(** The header lines of the document, stripped, in reading order. *)
Definition header_lines (lines : list (Z * string)) : list string :=
  flat_map (fun l => let line := Py.strip (snd l) in
                     if Py.truthy line && is_header line then [line] else [])
           lines.

(** The title under which text is being gathered, if any. *)
Definition opening (title : string) : list string :=
  match title with EmptyString => [] | _ => [title] end.

End Reading.

(** ** A small world

    Concrete collaborators and states on which the properties are
    exercised: texts are embedded by their length, distances are capped at
    the largest float, the language model is out of service. *)
Module Toy.

Definition float_max : Z := 340282346638528859811704183484516925440.

Definition collaborators : External :=
  {| vec := Z;
     encode := fun text => Z.of_nat (String.length text);
     fvec_L2sqr := fun a b => Z.min ((a - b) * (a - b)) float_max;
     FLT_MAX := float_max;
     split_text := RAG.text_splitter (fun _ => 0%nat);
     response := string;
     llm_invoke := fun _ => inl (APIError "service unavailable") |}.

Definition page1 : string :=
  "preamble line" +:+ RAG.nl +:+ "SECTION 1" +:+ RAG.nl +:+ "theft of property".

Definition page2 : string :=
  "and its penalties" +:+ RAG.nl +:+ "Section 2" +:+ RAG.nl +:+ "fraud".

Definition document : list string := [page1; page2].

Definition sections : list PDFProcessor.section :=
  [ {| PDFProcessor.section_title := "SECTION 1";
       PDFProcessor.content := "theft of property and its penalties";
       PDFProcessor.page_number := 2 |};
    {| PDFProcessor.section_title := "Section 2";
       PDFProcessor.content := "fraud";
       PDFProcessor.page_number := 2 |} ].

Definition chunk0 : RAG.document :=
  {| RAG.content := "theft of property and its penalties";
     RAG.section_title := "SECTION 1"; RAG.page_number := 2;
     RAG.chunk_id := "SECTION 1_0"; RAG.similarity_score := None |}.

Definition chunk1 : RAG.document :=
  {| RAG.content := "fraud";
     RAG.section_title := "Section 2"; RAG.page_number := 2;
     RAG.chunk_id := "Section 2_0"; RAG.similarity_score := None |}.

Definition index : Faiss.IndexFlatL2 (E := collaborators) :=
  {| Faiss.xb := [35; 5] : list (@vec collaborators) |}.

(** A new instance in an empty world. *)
Definition fresh : RAG.state (E := collaborators) := RAG.init [] ∅ ∅ [].

(** The instance after the two sections were processed and indexed. *)
Definition built : RAG.state (E := collaborators) :=
  {| RAG.vector_store := Some index;
     RAG.documents := [0%nat; 1%nat];
     RAG.heap := [chunk0; chunk1];
     RAG.dirs := ∅; RAG.files := ∅;
     RAG.log := [(RAG.INFO, "Processed 2 document chunks");
                 (RAG.INFO, "Created FAISS vector store with 2 documents")] |}.

(** A new instance over a disk where the index artifact has two slots and
    the corpus artifact one chunk, as a write cut short leaves them. *)
Definition torn : RAG.state (E := collaborators) :=
  RAG.init [] {[ "vector_store" ]}
    (<["vector_store/documents.pkl" := RAG.PickleFile [chunk0]]>
       (<["vector_store/faiss_index" := RAG.IndexFile (Some index)]> ∅))
    [].



End Toy.

(** ** The letter generator ([letter_generator.py]) *)
Module LetterGenerator.
Import RAG.

(** [case_data] as [CaseInput.dict()] produces it, restricted to the keys
    [generate_formal_letter] reads: the text fields are strings, and
    [tags] is a list of strings or [None]. *)
Record case_data := {
  case_title : string;
  incident_summary : string;
  tags : option (list string);
  advocate_name : string;
  client_name : string;
  law_firm_name : string
}.

(** The dictionary returned at lines 74-79. *)
Record letter_data := {
  formal_letter : string;
  legal_arguments : string;
  supporting_sections : list string;
  relevant_documents : list loc
}.

(** [str(n)] for an integer. *)
Definition str_int (n : Z) : string := NilZero.string_of_int (Z.to_int n).

Section Generator.
Context {E : External}.

(** The [content] attribute of the model's response object. *)
Variable message_content : response -> string.

(** A response object has a [content] attribute; a string has none and is
    returned as it is. *)
Definition _extract_content (r : text response) : string :=
  match r with
  | Response m => message_content m
  | Str s => s
  end.

Definition format_block (d : document) : string :=
  "Section: " +:+ section_title d +:+ nl +:+ "Content: "
  +:+ substring 0 500 (content d) +:+ "...".

Definition _format_context (docs : list loc) : M string :=
  let* formatted := mapM (fun doc => let* d := deref doc in ret (format_block d))
                         docs in
  ret (Py.join (nl +:+ nl) formatted).

(** [sep.join(case_data.get('tags', []))]; joining [None] raises. *)
Definition join_tags (sep : string) (c : case_data) : M string :=
  match tags c with
  | Some l => ret (Py.join sep l)
  | None => raise (TypeError "can only join an iterable")
  end.

Definition letter_prompt (case_data : case_data) (tags_joined context : string)
    : string :=
    nl +:+ indent +:+
    "Generate a formal legal letter based on the following case details and legal context:" +:+
    nl +:+ indent +:+ nl +:+ indent +:+ "Case Title: " +:+
    case_title case_data +:+ nl +:+ indent +:+ "Client Name: " +:+
    client_name case_data +:+ nl +:+ indent +:+ "Advocate Name: " +:+
    advocate_name case_data +:+ nl +:+ indent +:+ "Law Firm: " +:+
    law_firm_name case_data +:+ nl +:+ indent +:+ "Incident Summary: " +:+
    incident_summary case_data +:+ nl +:+ indent +:+ "Tags: " +:+
    tags_joined +:+ nl +:+ indent +:+ nl +:+ indent +:+ "Legal Context:" +:+
    nl +:+ indent +:+ context +:+ nl +:+ indent +:+ nl +:+ indent +:+
    "Please generate a formal legal letter that includes:" +:+ nl +:+
    indent +:+ "1. Clear statement of facts" +:+ nl +:+ indent +:+
    "2. Legal grounds based on the provided context" +:+ nl +:+ indent +:+
    "3. Demand/relief sought" +:+ nl +:+ indent +:+
    "4. Professional closing" +:+ nl +:+ indent +:+ nl +:+ indent +:+
    "The letter should be formal, legally sound, and favor the employee's position." +:+
    nl +:+ indent +:+
    "Do not include letterhead formatting as that will be handled separately." +:+
    nl +:+ indent.

Definition arguments_prompt (case_data : case_data) (context : string) : string :=
    nl +:+ indent +:+
    "Based on the case details and legal context provided, generate detailed legal arguments that support the employee's position:" +:+
    nl +:+ indent +:+ nl +:+ indent +:+ "Case: " +:+ case_title case_data +:+
    nl +:+ indent +:+ "Summary: " +:+ incident_summary case_data +:+ nl +:+
    indent +:+ nl +:+ indent +:+ "Legal Context:" +:+ nl +:+ indent +:+
    context +:+ nl +:+ indent +:+ nl +:+ indent +:+ "Provide:" +:+ nl +:+
    indent +:+ "1. Key legal arguments" +:+ nl +:+ indent +:+
    "2. Relevant legal provisions" +:+ nl +:+ indent +:+
    "3. Precedent references" +:+ nl +:+ indent +:+
    "4. Strategic recommendations" +:+ nl +:+ indent +:+
    "5. Potential counterarguments and responses" +:+ nl +:+ indent.

Definition supporting_section (d : document) : string :=
  section_title d +:+ " (Page " +:+ str_int (page_number d) +:+ ")".

Definition generate_formal_letter (case_data : case_data) : M letter_data :=
  let* tags_spaced := join_tags " " case_data in
  let search_query := case_title case_data +:+ " "
                      +:+ incident_summary case_data +:+ " " +:+ tags_spaced in
  let* relevant_docs := similarity_search search_query 7 in
  let* tags_joined := join_tags ", " case_data in
  let* context := _format_context relevant_docs in
  let* formal_letter_response :=
    generate_response (letter_prompt case_data tags_joined context)
                      relevant_docs in
  let* context' := _format_context relevant_docs in
  let* legal_arguments_response :=
    generate_response (arguments_prompt case_data context') relevant_docs in
  let formal_letter := _extract_content formal_letter_response in
  let legal_arguments := _extract_content legal_arguments_response in
  let* supporting_sections :=
    mapM (fun doc => let* d := deref doc in ret (supporting_section d))
         (take 5 relevant_docs) in
  ret {| formal_letter := formal_letter;
         legal_arguments := legal_arguments;
         supporting_sections := supporting_sections;
         relevant_documents := relevant_docs |}.

(** *** Vocabulary of the properties *)

(** The state with lines added to the log. *)
Definition add_log (s : state) (lines : list (level * string)) : state :=
  {| vector_store := vector_store s; documents := documents s;
     heap := heap s; dirs := dirs s; files := files s;
     log := log s ++ lines |}.

(** What [generate_response] returns and logs for a query over context
    dictionaries. *)
Definition answer_of (query : string) (ds : list document)
    : text response * list (level * string) :=
  match llm_invoke (prompt_of (Py.join (nl +:+ nl) (map context_block ds)) query) with
  | inr r => (Response r, [])
  | inl e => (Str "Error generating response",
              [(ERROR, "Error generating LLM response: " +:+ str_exn e)])
  end.

End Generator.
End LetterGenerator.

(** ** The application ([main.py]) *)
Module Main.
Import RAG.

(** The two module globals, [None] or set. *)
Record globals := { rag_system : bool; letter_generator : bool }.

Definition pdf_path : string :=
  "C:\Users\hp\Desktop\mukund work related\legal-letter-generator\backend\documents\legal-IPC.pdf".

(** What an endpoint answers: a body, or an [HTTPException]. *)
Inductive http_result (A : Type) :=
| Answer (a : A)
| HTTPException (status_code : Z) (detail : string).
Arguments Answer {A} a.
Arguments HTTPException {A} status_code detail.

(** What the body of an endpoint can raise. *)
Inductive raised :=
| PyError (e : exn)
| HTTPError (status_code : Z) (detail : string).

Record health := {
  status : string;
  rag_system_ready : bool;
  letter_generator_ready : bool
}.

Section App.
Context {E : External}.

(** [fitz.open] on the bytes of a file: the page texts, or the exception
    it raises. *)
Variable fitz_open : string -> exn + list string.

(** The [content] attribute of the model's response object. *)
Variable message_content : response -> string.

(** The case collection: a stored case, a clock reading, [insert_one]
    answering with the new id, and [find_one] by id, the id of the case
    found already converted to a string. *)
Variable stored_case : Type.
Variable time : Type.
Variable insert_one :
  LetterGenerator.case_data -> LetterGenerator.letter_data -> time -> exn + string.
Variable find_one : string -> exn + option stored_case.

(** [str(e)] for an [HTTPException]. *)
Variable http_str : Z -> string -> string.

Definition str_raised (r : raised) : string :=
  match r with
  | PyError e => str_exn e
  | HTTPError status_code detail => http_str status_code detail
  end.

(** *** [PDFProcessor] over the disk *)

(** [load_pdf]: the opened document, or [None] after logging the
    error. *)
Definition load_pdf (path : string) : M (option (list string)) :=
  let* fs := gets files in
  let opened :=
    match fs !! path with
    | Some (OtherFile bytes) => fitz_open bytes
    | Some _ => inl (RuntimeError path)
    | None => inl (FileNotFoundError path)
    end in
  match opened with
  | inr document =>
      logger INFO ("Successfully loaded PDF: " +:+ path) ;;
      ret (Some document)
  | inl e =>
      logger ERROR ("Error loading PDF: " +:+ str_exn e) ;;
      ret None
  end.

(** [extract_sections] on a new processor: [extract_text_by_pages] loads
    the document and takes its length, which raises when the load
    failed. *)
Definition extract_sections (path : string) : M (list PDFProcessor.section) :=
  let* document := load_pdf path in
  match document with
  | Some pages => ret (PDFProcessor.extract_sections pages)
  | None => raise (TypeError "object of type 'NoneType' has no len()")
  end.

(** *** Start-up *)

(** [RAGSystem()]: the fields of a new instance; the constructor's loading
    of the encoder and of the language-model client is taken to
    succeed. *)
Definition new_rag_system : M unit :=
  set_vector_store None ;; set_documents [].

(** [os.path.exists]. *)
Definition path_exists (path : string) : M bool :=
  gets (fun s => bool_decide (is_Some (files s !! path))
                 || bool_decide (path ∈ dirs s)).

Definition initialize_rag_system (g : globals) : M globals :=
  try_except
    (new_rag_system ;;
     let* loaded := load_vector_store "vector_store" in
     if negb loaded then
       logger INFO "Vector store not found. Processing PDF..." ;;
       let* found := path_exists pdf_path in
       if negb found then
         logger ERROR ("Legal PDF not found at " +:+ pdf_path) ;;
         ret {| rag_system := true; letter_generator := letter_generator g |}
       else
         let* sections := extract_sections pdf_path in
         process_documents sections ;;
         create_vector_store ;;
         save_vector_store "vector_store" ;;
         logger INFO "RAG system initialized successfully" ;;
         ret {| rag_system := true; letter_generator := true |}
     else ret {| rag_system := true; letter_generator := true |})
    (fun e =>
       logger ERROR ("Error initializing RAG system: " +:+ str_exn e) ;;
       ret {| rag_system := true; letter_generator := letter_generator g |}).

(** *** Endpoints *)

Definition health_check (g : globals) : health :=
  {| status := "healthy";
     rag_system_ready := rag_system g;
     letter_generator_ready := letter_generator g |}.

Record GeneratedLetter := {
  gl_case_id : string;
  gl_case_title : string;
  gl_formal_letter : string;
  gl_legal_arguments : string;
  gl_supporting_sections : list string;
  gl_created_at : time
}.

Record CaseResponse := {
  success : bool;
  message : string;
  case_id : option string;
  letter : option GeneratedLetter
}.

(** [save_case]: stamps the data with the clock reading and inserts
    it. *)
Definition save_case (now : time) (case_data : LetterGenerator.case_data)
    (letter_data : LetterGenerator.letter_data) : M string :=
  match insert_one case_data letter_data now with
  | inr id => ret id
  | inl e => raise e
  end.

Definition generate_letter (g : globals) (now : time)
    (case_input : LetterGenerator.case_data)
    : state -> http_result CaseResponse * state :=
  fun s =>
    if negb (rag_system g) || negb (letter_generator g) then
      (HTTPException 503 "RAG system not initialized", s)
    else
      let body :=
        let* letter_data :=
          LetterGenerator.generate_formal_letter message_content case_input in
        let* id := save_case now case_input letter_data in
        ret {| success := true;
               message := "Letter generated successfully";
               case_id := Some id;
               letter := Some
                 {| gl_case_id := id;
                    gl_case_title := LetterGenerator.case_title case_input;
                    gl_formal_letter := LetterGenerator.formal_letter letter_data;
                    gl_legal_arguments := LetterGenerator.legal_arguments letter_data;
                    gl_supporting_sections :=
                      LetterGenerator.supporting_sections letter_data;
                    gl_created_at := now |} |} in
      match body s with
      | (Return r, s') => (Answer r, s')
      | (Raise e, s') =>
          (HTTPException 500 (str_exn e),
           snd (logger ERROR ("Error generating letter: " +:+ str_exn e) s'))
      end.

(** [get_case] of [database.py]. *)
Definition get_case (case_id : string) : exn + option stored_case :=
  find_one case_id.

Definition get_case_details (case_id : string)
    : state -> http_result stored_case * state :=
  fun s =>
    let body : raised + stored_case :=
      match get_case case_id with
      | inl e => inl (PyError e)
      | inr None => inl (HTTPError 404 "Case not found")
      | inr (Some case) => inr case
      end in
    match body with
    | inr case => (Answer case, s)
    | inl e =>
        (HTTPException 500 (str_raised e),
         snd (logger ERROR ("Error retrieving case: " +:+ str_raised e) s))
    end.

End App.
End Main.

(** ** A small office

    More of the small world: a case, a language model that answers, a
    disk with the PDF, and a case collection. *)
Module Office.

Definition case : LetterGenerator.case_data :=
  {| LetterGenerator.case_title := "Unpaid wages";
     LetterGenerator.incident_summary := "fraud";
     LetterGenerator.tags := Some ["wages"; "fraud"];
     LetterGenerator.advocate_name := "A. Rao";
     LetterGenerator.client_name := "C. Das";
     LetterGenerator.law_firm_name := "Rao and Partners" |}.

(** The same case as a request with ["tags": null] gives it. *)
Definition case_without_tags : LetterGenerator.case_data :=
  {| LetterGenerator.case_title := "Unpaid wages";
     LetterGenerator.incident_summary := "fraud";
     LetterGenerator.tags := None;
     LetterGenerator.advocate_name := "A. Rao";
     LetterGenerator.client_name := "C. Das";
     LetterGenerator.law_firm_name := "Rao and Partners" |}.

(** Collaborators whose language model answers every prompt. *)
Definition answering : External :=
  {| vec := Z;
     encode := fun text => Z.of_nat (String.length text);
     fvec_L2sqr := fun a b => Z.min ((a - b) * (a - b)) Toy.float_max;
     FLT_MAX := Toy.float_max;
     split_text := RAG.text_splitter (fun _ => 0%nat);
     response := string;
     llm_invoke := fun _ => inr "Dear Sir" |}.

Definition answering_index : Faiss.IndexFlatL2 (E := answering) :=
  {| Faiss.xb := [35; 5] : list (@vec answering) |}.

Definition answering_built : RAG.state (E := answering) :=
  {| RAG.vector_store := Some answering_index;
     RAG.documents := [0%nat; 1%nat];
     RAG.heap := [Toy.chunk0; Toy.chunk1];
     RAG.dirs := ∅; RAG.files := ∅; RAG.log := [] |}.

(** The content of a response, here the response itself. *)
Definition message_content (r : string) : string := r.

(** A disk that holds the index artifact only. *)
Definition index_only : RAG.state (E := Toy.collaborators) :=
  RAG.init [] {[ "vector_store" ]}
    (<["vector_store/faiss_index" := RAG.IndexFile (Some Toy.index)]> ∅) [].

(** A disk that holds the PDF only, and the library that opens it. *)
Definition with_pdf : RAG.state (E := Toy.collaborators) :=
  RAG.init [] ∅ (<[Main.pdf_path := RAG.OtherFile "%PDF"]> ∅) [].

Definition fitz_open (bytes : string) : exn + list string := inr Toy.document.

(** A case collection that accepts every insertion and finds no case. *)
Definition insert_one (c : LetterGenerator.case_data)
    (d : LetterGenerator.letter_data) (t : Z) : exn + string :=
  inr "6543f0a1".

Definition find_one (case_id : string) : exn + option string := inr None.

Definition http_str (status_code : Z) (detail : string) : string := detail.

End Office.

(** * Properties *)

(** ** Strings *)
Module PyFacts.
Import Py.

Definition all_space (s : string) : bool := all_chars isspace s.

Lemma all_chars_rev_app p s1 s2 :
  all_chars p (String.rev_app s1 s2) = all_chars p s1 && all_chars p s2.
Proof.
  revert s2. induction s1 as [|c s1 IH]; intros s2; simpl; [done|].
  rewrite IH. simpl. destruct (p c), (all_chars p s1); simpl; auto.
Qed.

Lemma all_space_rev s : all_space (String.rev s) = all_space s.
Proof.
  unfold all_space, String.rev. rewrite all_chars_rev_app. simpl.
  apply andb_true_r.
Qed.

Lemma all_space_app a b : all_space (a +:+ b) = all_space a && all_space b.
Proof.
  unfold all_space. induction a as [|c a IH]; simpl; [done|].
  rewrite IH. by rewrite andb_assoc.
Qed.

Lemma rev_app_empty s1 s2 : String.rev_app s1 s2 = "" -> s1 = "" /\ s2 = "".
Proof.
  revert s2. induction s1 as [|c s1 IH]; intros s2 H; simpl in *; [done|].
  apply IH in H as [_ H]. discriminate.
Qed.

Lemma rev_empty s : String.rev s = "" <-> s = "".
Proof.
  split; [intros H; by apply rev_app_empty in H as [? _] | by intros ->].
Qed.

(** What [lstrip] leaves is empty or starts with a visible character. *)
Lemma lstrip_cases s : lstrip s = "" \/ all_space (lstrip s) = false.
Proof.
  induction s as [|c s IH]; simpl; [by left|].
  destruct (isspace c) eqn:Hc; [done|].
  right. unfold all_space. simpl. by rewrite Hc.
Qed.

Lemma all_space_lstrip s : all_space (lstrip s) = all_space s.
Proof.
  unfold all_space. induction s as [|c s IH]; simpl; [done|].
  destruct (isspace c) eqn:Hc; simpl; [done|]. by rewrite Hc.
Qed.

Lemma lstrip_empty s : lstrip s = "" <-> all_space s = true.
Proof.
  rewrite <- all_space_lstrip. split; [by intros ->|].
  destruct (lstrip_cases s) as [->| ->]; [done | discriminate].
Qed.

Lemma strip_empty s : strip s = "" <-> all_space s = true.
Proof.
  unfold strip, rstrip. rewrite rev_empty, lstrip_empty, all_space_rev.
  apply eq_iff_eq_true, all_space_lstrip.
Qed.

(** A non-empty stripped line has a visible character. *)
Lemma strip_visible s : strip s <> "" -> all_space (strip s) = false.
Proof.
  unfold strip, rstrip. intros H. rewrite all_space_rev.
  destruct (lstrip_cases (String.rev (lstrip s))) as [E|E]; [|done].
  rewrite E in H. done.
Qed.

Lemma truthy_true s : truthy s = true <-> s <> "".
Proof. destruct s; simpl; split; (done || congruence). Qed.

(** Appending a visible line keeps the gathered body visible. *)
Lemma strip_gathered body raw :
  strip raw <> "" -> strip (body +:+ strip raw +:+ " ") <> "".
Proof.
  intros Hv H. apply strip_empty in H. rewrite !all_space_app in H.
  rewrite (strip_visible _ Hv) in H.
  destruct (all_space body); discriminate.
Qed.

End PyFacts.

(** ** The section extractor *)
Module PDFFacts.
Import PDFProcessor.

Lemma fold_pages_lines pages st :
  fold_left step_page pages st = fold_left step_tagged (tagged_lines pages) st.
Proof.
  revert st. induction pages as [|pd pages IH]; intros st; simpl; [done|].
  rewrite fold_left_app, <- IH. f_equal.
  unfold step_page. generalize (Py.split_lines (pd_content pd)). intros l.
  revert st. induction l as [|x l IHl]; intros st; simpl; [done|]. apply IHl.
Qed.

Lemma extract_sections_lines document :
  extract_sections document
  = extract_from_lines (last_page_number (extract_text_by_pages document))
                       (tagged_lines (extract_text_by_pages document)).
Proof. unfold extract_sections, extract_from_lines. by rewrite fold_pages_lines. Qed.

Lemma initial_ok : locals_ok initial.
Proof. repeat split; simpl; auto. Qed.

Lemma save_previous_ok page st :
  locals_ok st -> Forall emitted_ok (save_previous page st).
Proof.
  intros (Hs & Ht & Hc). unfold save_previous.
  destruct (Py.truthy (current_section st)) eqn:E1; simpl; [|done].
  destruct (Py.truthy (current_content st)) eqn:E2; simpl; [|done].
  apply PyFacts.truthy_true in E1, E2.
  apply Forall_app. split; [done|]. apply Forall_cons. split; [|done].
  repeat split; simpl; [done| |]; tauto.
Qed.

Lemma step_line_ok page st raw : locals_ok st -> locals_ok (step_line page st raw).
Proof.
  intros Hok. unfold step_line.
  destruct (Py.truthy (Py.strip raw)) eqn:E; simpl; [|done].
  apply PyFacts.truthy_true in E.
  destruct (is_header (Py.strip raw)) eqn:Hh.
  - repeat split; simpl; auto using save_previous_ok.
  - destruct Hok as (Hs & Ht & Hc). repeat split; simpl; auto.
    right. by apply PyFacts.strip_gathered.
Qed.

Lemma fold_lines_ok lines st :
  locals_ok st -> locals_ok (fold_left step_tagged lines st).
Proof.
  revert st. induction lines as [|l lines IH]; intros st H; simpl; [done|].
  apply IH. by apply step_line_ok.
Qed.

Lemma save_previous_untitled page st :
  current_section st = "" -> save_previous page st = sections st.
Proof. intros H. unfold save_previous. by rewrite H. Qed.

Lemma step_same_output a b l :
  same_output a b -> same_output (step_tagged a l) (step_tagged b l).
Proof.
  intros [->|(Hs & Ha & Hb)]; [by left|].
  unfold step_tagged, step_line.
  destruct (negb (Py.truthy (Py.strip (snd l)))); [by right|].
  destruct (is_header (Py.strip (snd l))).
  - left. rewrite !save_previous_untitled by done. by rewrite Hs.
  - right. simpl. auto.
Qed.

Lemma fold_same_output lines a b :
  same_output a b ->
  same_output (fold_left step_tagged lines a) (fold_left step_tagged lines b).
Proof.
  revert a b. induction lines as [|l lines IH]; intros a b H; simpl; [done|].
  apply IH. by apply step_same_output.
Qed.

Lemma save_same_output page a b :
  same_output a b -> save_previous page a = save_previous page b.
Proof.
  intros [->|(Hs & Ha & Hb)]; [done|].
  by rewrite !save_previous_untitled.
Qed.

(** Lines that open nothing, met before any header, leave no trace. *)
Lemma preamble_untitled pre :
  Forall opens_nothing pre -> same_output (fold_left step_tagged pre initial) initial.
Proof.
  assert (G : forall st, current_section st = "" -> sections st = [] ->
              Forall opens_nothing pre ->
              same_output (fold_left step_tagged pre st) initial).
  { induction pre as [|l pre IH]; intros st Ht Hs Hp; simpl.
    - right. auto.
    - inversion Hp as [|? ? Hl Hp']; subst. apply IH; [| |done].
      + unfold step_tagged, step_line.
        destruct (negb (Py.truthy (Py.strip (snd l)))); [done|].
        unfold opens_nothing in Hl. by rewrite Hl.
      + unfold step_tagged, step_line.
        destruct (negb (Py.truthy (Py.strip (snd l)))); [done|].
        unfold opens_nothing in Hl. by rewrite Hl. }
  by apply G.
Qed.

(** C7: every emitted section has a header line for title and a body that
    is not empty, and the lines met before the first header reach no
    emitted section: the output is the one obtained from the remaining
    lines alone. *)
Theorem extract_sections_titled_bodies (document : list string)
    (pre rest : list (Z * string)) :
  tagged_lines (extract_text_by_pages document) = pre ++ rest ->
  Forall opens_nothing pre ->
  Forall emitted_ok (extract_sections document)
  /\ extract_sections document
     = extract_from_lines (last_page_number (extract_text_by_pages document)) rest.
Proof.
  intros Hl Hp. split.
  - unfold extract_sections. apply save_previous_ok.
    rewrite fold_pages_lines. apply fold_lines_ok, initial_ok.
  - rewrite extract_sections_lines, Hl. unfold extract_from_lines.
    rewrite fold_left_app. apply save_same_output, fold_same_output.
    by apply preamble_untitled.
Qed.

End PDFFacts.

(** ** The chunker *)
Module SplitterFacts.
Import Splitter.

Lemma length_substring_le n m s : (String.length (substring n m s) <= m)%nat.
Proof.
  revert n m. induction s as [|c s IH]; intros [|n] [|m]; simpl; try lia.
  - specialize (IH 0%nat m). lia.
  - apply (IH n 0%nat).
  - apply (IH n (S m)).
Qed.

Lemma substring_whole m s : (String.length s <= m)%nat -> substring 0 m s = s.
Proof.
  revert m. induction s as [|c s IH]; intros [|m] H; simpl in *; try done; try lia.
  f_equal. apply IH. lia.
Qed.

Lemma length_break_at prefer w :
  (String.length (break_at prefer w) <= String.length w)%nat.
Proof.
  unfold break_at.
  destruct ((1 <=? prefer w)%nat && (prefer w <=? String.length w)%nat) eqn:E;
    [|lia].
  apply andb_true_iff in E as [_ E]. apply Nat.leb_le in E.
  pose proof (length_substring_le 0 (prefer w) w). lia.
Qed.

Lemma split_text_bounded prefer size overlap body :
  Forall (fun c => (String.length c <= size)%nat)
         (split_text prefer size overlap body).
Proof.
  unfold split_text. apply Forall_forall. intros c Hc.
  apply list_elem_of_In, in_map_iff in Hc as (i & <- & _).
  pose proof (length_substring_le (i * (size - overlap)) size body) as Hw.
  destruct (S i =? _)%nat; [done|].
  pose proof (length_break_at prefer
                (substring (i * (size - overlap)) size body)). lia.
Qed.

Lemma split_text_empty prefer size overlap :
  split_text prefer size overlap "" = [].
Proof. reflexivity. Qed.

Lemma split_text_short prefer size overlap body :
  body <> "" -> (String.length body <= size)%nat ->
  split_text prefer size overlap body = [body].
Proof.
  intros Hne Hlen. unfold split_text, window_count.
  destruct (String.length body =? 0)%nat eqn:E0.
  { apply Nat.eqb_eq in E0. destruct body; [done | discriminate]. }
  apply Nat.leb_le in Hlen. rewrite Hlen. simpl.
  f_equal. apply substring_whole. by apply Nat.leb_le.
Qed.

Example split_text_windows :
  split_text (fun _ => 0%nat) 4 1 "abcdefghij" = ["abcd"; "defg"; "ghij"].
Proof. reflexivity. Qed.

Example split_text_partial_window :
  split_text (fun _ => 0%nat) 4 1 "abcde" = ["abcd"; "de"].
Proof. reflexivity. Qed.

End SplitterFacts.

(** ** The flat index *)
Module FaissFacts.
Import Faiss.
Section Facts.
Context {E : External}.

Lemma hit_leb_le a b : hit_leb a b = true <-> hit_le a b.
Proof.
  unfold hit_leb, hit_le.
  rewrite orb_true_iff, andb_true_iff, Z.ltb_lt, Z.eqb_eq, Z.leb_le. tauto.
Qed.

Lemma hit_le_total a b : hit_leb a b = false -> hit_le b a.
Proof.
  intros H. destruct (hit_leb b a) eqn:Hb; [by apply hit_leb_le|].
  apply not_true_iff_false in H, Hb. rewrite hit_leb_le in H, Hb.
  unfold hit_le in *. lia.
Qed.

Lemma hit_le_trans a b c : hit_le a b -> hit_le b c -> hit_le a c.
Proof. unfold hit_le. lia. Qed.

Lemma Forall_insert_hit (P : hit -> Prop) h l :
  P h -> Forall P l -> Forall P (insert_hit h l).
Proof.
  intros Hh. induction 1 as [|x l Hx Hl IH]; simpl; [by repeat constructor|].
  destruct (hit_leb h x); repeat constructor; auto.
Qed.

Lemma insert_hit_sorted h l :
  StronglySorted hit_le l -> StronglySorted hit_le (insert_hit h l).
Proof.
  induction 1 as [|x l Hl IH Hx]; simpl; [by repeat constructor|].
  destruct (hit_leb h x) eqn:Hhx.
  - apply hit_leb_le in Hhx. constructor; [by constructor|].
    constructor; [done|].
    eapply Forall_impl; [exact Hx|]. intros y Hy. by eapply hit_le_trans.
  - constructor; [done|]. apply Forall_insert_hit; [|done].
    by apply hit_le_total.
Qed.

Lemma rank_sorted l : StronglySorted hit_le (rank l).
Proof.
  induction l as [|h l IH]; simpl; [constructor | by apply insert_hit_sorted].
Qed.

Lemma Forall_rank (P : hit -> Prop) l : Forall P l -> Forall P (rank l).
Proof.
  induction 1 as [|h l Hh Hl IH]; simpl; [constructor|].
  by apply Forall_insert_hit.
Qed.

Lemma length_insert_hit h l : length (insert_hit h l) = S (length l).
Proof.
  induction l as [|x l IH]; simpl; [done|].
  destruct (hit_leb h x); simpl; [done | by rewrite IH].
Qed.

Lemma length_rank l : length (rank l) = length l.
Proof.
  induction l as [|h l IH]; simpl; [done|]. by rewrite length_insert_hit, IH.
Qed.


Lemma scan_labels index x :
  Forall (fun h => 0 <= snd h < Z.of_nat (ntotal index)) (scan index x).
Proof.
  apply Forall_forall. intros h Hh. unfold scan in Hh.
  apply elem_of_lookup_imap in Hh as (j & y & -> & Hj).
  apply lookup_lt_Some in Hj. unfold ntotal. simpl. lia.
Qed.

(** The library fills the [k] positions of a query whatever is stored. *)
Lemma length_knn index x k : length (knn index x k) = k.
Proof.
  unfold knn. rewrite length_app, length_replicate, length_take. lia.
Qed.

(** Nothing is padded when enough vectors are stored. *)
Lemma knn_enough index x k :
  (k <= ntotal index)%nat -> knn index x k = take k (rank (scan index x)).
Proof.
  intros Hk. unfold knn.
  rewrite length_take, length_rank. unfold scan. rewrite length_imap.
  unfold ntotal in Hk.
  replace (k - _)%nat with 0%nat by lia. simpl. apply app_nil_r.
Qed.

Lemma knn_labels index x k :
  Forall (fun h => -1 <= snd h < Z.of_nat (ntotal index) \/ snd h = -1)
         (knn index x k).
Proof.
  unfold knn. apply Forall_app. split.
  - apply Forall_take, Forall_rank.
    eapply Forall_impl; [apply scan_labels|]. simpl. intros h Hh. lia.
  - apply Forall_replicate. by right.
Qed.

(** The wrapper lets every positive [k] through, and no other. *)
Lemma search_pos index x k :
  (0 < k)%nat -> search index x k = inr (knn index x k).
Proof.
  intros Hk. unfold search. by destruct k; [lia|].
Qed.


End Facts.
End FaissFacts.

(** ** The retrieval system *)
Module RAGFacts.
Import RAG.
Section Facts.
Context {E : External}.

Lemma set_heap_id s : set_heap (heap s) s = s.
Proof. by destruct s. Qed.

Lemma set_heap_twice h h' s : set_heap h' (set_heap h s) = set_heap h' s.
Proof. reflexivity. Qed.

Lemma alloc_eq d s :
  alloc d s = (Return (length (heap s)), set_heap (heap s ++ [d]) s).
Proof. reflexivity. Qed.

Lemma mapM_alloc ds s :
  mapM alloc ds s
  = (Return (seq (length (heap s)) (length ds)), set_heap (heap s ++ ds) s).
Proof.
  revert s. induction ds as [|d ds IH]; intros s; simpl.
  - unfold ret. by rewrite app_nil_r, set_heap_id.
  - unfold bind at 1. rewrite alloc_eq. unfold bind at 1. rewrite IH.
    unfold ret. simpl. rewrite length_app. simpl.
    rewrite Nat.add_1_r, <- app_assoc. reflexivity.
Qed.

Lemma mapM_deref ls ds s :
  Forall2 (fun l d => heap s !! l = Some d) ls ds ->
  mapM deref ls s = (Return ds, s).
Proof.
  induction 1 as [|l d ls ds Hl _ IH]; simpl; [done|].
  unfold bind at 1. unfold deref at 1. rewrite Hl.
  unfold bind at 1. by rewrite IH.
Qed.

Lemma mapM_deref_map {B} (f : document -> B) ls ds s :
  Forall2 (fun l d => heap s !! l = Some d) ls ds ->
  mapM (fun l => let* d := deref l in ret (f d)) ls s = (Return (map f ds), s).
Proof.
  induction 1 as [|l d ls ds Hl _ IH]; simpl; [done|].
  unfold bind at 1. unfold bind at 1. unfold deref at 1. rewrite Hl.
  unfold ret at 1. unfold bind at 1. by rewrite IH.
Qed.

(** *** [process_documents] *)

Lemma inner_loop section ics all_chunks s :
  foldM (fun all_chunks ic =>
           let* d := alloc (chunk_record section (fst ic) (snd ic)) in
           ret (all_chunks ++ [d]))
        ics all_chunks s
  = (Return (all_chunks ++ seq (length (heap s)) (length ics)),
     set_heap (heap s ++ map (fun ic => chunk_record section (fst ic) (snd ic)) ics) s).
Proof.
  revert all_chunks s. induction ics as [|ic ics IH]; intros acc s; simpl.
  - unfold ret. by rewrite !app_nil_r, set_heap_id.
  - unfold bind at 1. unfold bind at 1. rewrite alloc_eq. unfold ret at 1.
    rewrite IH. simpl. rewrite length_app. simpl.
    rewrite Nat.add_1_r, <- !app_assoc. reflexivity.
Qed.

Lemma enumerate_records section (chunks : list string) :
  map (fun ic => chunk_record section (fst ic) (snd ic)) (enumerate chunks)
  = imap (chunk_record section) chunks.
Proof.
  unfold enumerate.
  change (map ?f ?l) with (f <$> l). rewrite fmap_imap. by apply imap_ext.
Qed.

Lemma outer_loop sections all_chunks s :
  foldM (fun all_chunks section =>
           let chunks := split_text (PDFProcessor.content section) in
           foldM (fun all_chunks ic =>
                    let* d := alloc (chunk_record section (fst ic) (snd ic)) in
                    ret (all_chunks ++ [d]))
                 (enumerate chunks) all_chunks)
        sections all_chunks s
  = (Return (all_chunks ++ seq (length (heap s)) (length (chunks_of sections))),
     set_heap (heap s ++ chunks_of sections) s).
Proof.
  revert all_chunks s. induction sections as [|sec sections IH]; intros acc s; simpl.
  - unfold ret. by rewrite !app_nil_r, set_heap_id.
  - unfold bind at 1. rewrite inner_loop, IH. simpl.
    rewrite enumerate_records. unfold enumerate.
    rewrite !length_app, !length_imap, seq_app, <- !app_assoc. reflexivity.
Qed.

Lemma lookup_fresh (h ds : list document) i :
  (h ++ ds) !! (length h + i)%nat = ds !! i.
Proof. by rewrite lookup_app_r, Nat.add_comm, Nat.add_sub by lia. Qed.

Lemma fresh_corpus (h ds : list document) :
  Forall2 (fun l d => (h ++ ds) !! l = Some d) (seq (length h) (length ds)) ds.
Proof.
  apply Forall2_lookup. intros i.
  destruct (ds !! i) as [d|] eqn:Hd.
  - apply lookup_lt_Some in Hd as Hlt.
    rewrite lookup_seq_lt by done. constructor. by rewrite lookup_fresh.
  - apply lookup_ge_None in Hd.
    rewrite lookup_seq_ge by done. constructor.
Qed.

(** C10: [process_documents] stores exactly the chunk records of the given
    sections, in section order and chunk order, as new objects; the list
    it stores does not depend on the corpus stored before, so a second run
    does not accumulate; every record carries its section's title and
    page number and the position of the chunk inside its section, counted
    from zero, in [chunk_id]. *)
Theorem process_documents_replaces (sections : list PDFProcessor.section)
    (s : state) :
  let cs := chunks_of sections in
  let new := seq (length (heap s)) (length cs) in
  process_documents sections s
  = (Return new,
     {| vector_store := vector_store s; documents := new;
        heap := heap s ++ cs; dirs := dirs s; files := files s;
        log := log s ++ [(INFO, "Processed " +:+ Py.str_nat (length cs)
                                +:+ " document chunks")] |})
  /\ Forall2 (fun l d => (heap s ++ cs) !! l = Some d) new cs
  /\ (forall section (i : nat) chunk,
        split_text (PDFProcessor.content section) !! i = Some chunk ->
        imap (chunk_record section)
             (split_text (PDFProcessor.content section)) !! i
        = Some {| content := chunk;
                  section_title := PDFProcessor.section_title section;
                  page_number := PDFProcessor.page_number section;
                  chunk_id := PDFProcessor.section_title section +:+ "_"
                              +:+ Py.str_nat i;
                  similarity_score := None |}).
Proof.
  intros cs new. split; [|split].
  - unfold process_documents. unfold bind at 1. rewrite outer_loop. simpl.
    fold cs. fold new. unfold bind, set_documents, logger, modify, ret. simpl.
    unfold new at 3. rewrite length_seq. reflexivity.
  - apply fresh_corpus.
  - intros section i chunk Hi. rewrite list_lookup_imap, Hi. reflexivity.
Qed.

(** *** [similarity_search] *)

Lemma index_Forall2 {A B} (R : A -> B -> Prop) l1 l2 i :
  Forall2 R l1 l2 -> option_Forall2 R (Py.index l1 i) (Py.index l2 i).
Proof.
  intros H. unfold Py.index. rewrite (Forall2_length _ _ _ H).
  destruct (0 <=? i); [by apply Forall2_lookup|].
  destruct (_ <=? i); [by apply Forall2_lookup | constructor].
Qed.

Lemma corpus_grow s ds extra :
  corpus s ds -> corpus (set_heap (heap s ++ extra) s) ds.
Proof.
  unfold corpus. simpl. intros Hc. eapply Forall2_impl; [exact Hc|].
  intros l d H. simpl in H.
  rewrite lookup_app_l; [done|]. by apply lookup_lt_Some in H.
Qed.

Lemma collect_eq ds results h s :
  corpus s ds ->
  collect results h s
  = if snd h <? Z.of_nat (length ds) then
      match Py.index ds (snd h) with
      | None => (Raise (IndexError "list index out of range"), s)
      | Some d => (Return (results ++ [length (heap s)]),
                   set_heap (heap s ++ [with_score (fst h) d]) s)
      end
    else (Return results, s).
Proof.
  intros Hc. unfold collect. unfold bind at 1. unfold gets.
  rewrite (Forall2_length _ _ _ Hc).
  destruct (snd h <? Z.of_nat (length ds)); [|done].
  pose proof (index_Forall2 _ _ _ (snd h) Hc) as Hi.
  inversion Hi as [l d Hl Hl1 Hl2|]; [|done].
  unfold bind at 1. unfold copy. unfold bind at 1. unfold deref at 1.
  rewrite Hl, alloc_eq.
  unfold bind at 1. unfold set_similarity_score. unfold bind at 1.
  unfold deref. simpl.
  rewrite lookup_app_r, Nat.sub_diag by lia. simpl.
  unfold modify, ret, set_heap. simpl.
  rewrite insert_app_r_alt, Nat.sub_diag by lia. reflexivity.
Qed.

Lemma foldM_collect ds hits results s :
  corpus s ds ->
  foldM collect hits results s
  = (match snd (resolve_hits ds hits) with
     | None => Return (results ++ seq (length (heap s))
                                      (length (fst (resolve_hits ds hits))))
     | Some e => Raise e
     end,
     set_heap (heap s ++ fst (resolve_hits ds hits)) s).
Proof.
  revert results s. induction hits as [|h hits IH]; intros results s Hc; simpl.
  - unfold ret. by rewrite !app_nil_r, set_heap_id.
  - unfold bind at 1. rewrite (collect_eq ds) by done.
    destruct (snd h <? Z.of_nat (length ds)); [|by apply IH].
    destruct (Py.index ds (snd h)) as [d|]; simpl.
    + rewrite IH by by apply corpus_grow.
      destruct (resolve_hits ds hits) as [rs e]. simpl.
      rewrite length_app. simpl. rewrite Nat.add_1_r, <- !app_assoc.
      reflexivity.
    + by rewrite app_nil_r, set_heap_id.
Qed.

(** The search, in terms of the stored dictionaries. *)
Lemma similarity_search_eq s index ds query k :
  vector_store s = Some index -> corpus s ds -> (0 < k)%nat ->
  let r := resolve_hits ds (Faiss.knn index (encode query) k) in
  similarity_search query k s
  = (match snd r with
     | None => Return (seq (length (heap s)) (length (fst r)))
     | Some e => Raise e
     end,
     set_heap (heap s ++ fst r) s).
Proof.
  intros Hv Hc Hk r. unfold similarity_search. unfold bind at 1. unfold gets.
  rewrite Hv, FaissFacts.search_pos by done.
  rewrite (foldM_collect ds) by done. reflexivity.
Qed.

(** With [k = 0] the assertion of the wrapper fails before anything is
    resolved. *)
Lemma similarity_search_zero s index query :
  vector_store s = Some index ->
  similarity_search query 0 s = (Raise (AssertionError ""), s).
Proof.
  intros Hv. unfold similarity_search. unfold bind at 1. unfold gets.
  by rewrite Hv.
Qed.

Lemma similarity_search_uninitialized s query k :
  vector_store s = None ->
  similarity_search query k s
  = (Raise (ValueError "Vector store not initialized"), s).
Proof.
  intros Hv. unfold similarity_search. unfold bind at 1. unfold gets.
  by rewrite Hv.
Qed.

Lemma index_slot (ds : list document) h :
  - Z.of_nat (length ds) <= snd h < Z.of_nat (length ds) ->
  exists d, Py.index ds (snd h) = Some d /\ ds !! slot_of (length ds) h = Some d.
Proof.
  intros Hr. unfold Py.index, slot_of.
  destruct (0 <=? snd h) eqn:E0.
  - apply Z.leb_le in E0. assert ((snd h <? 0) = false) as -> by lia.
    destruct (lookup_lt_is_Some_2 ds (Z.to_nat (snd h))) as [d Hd]; [lia|].
    eauto.
  - apply Z.leb_gt in E0. assert ((snd h <? 0) = true) as -> by lia.
    assert ((- Z.of_nat (length ds) <=? snd h) = true) as -> by lia.
    destruct (lookup_lt_is_Some_2 ds (Z.to_nat (Z.of_nat (length ds) + snd h)))
      as [d Hd]; [lia|].
    eauto.
Qed.

(** With every label inside the corpus (counting Python's negative
    indices) the loop raises nothing and appends one result per hit. *)
Lemma resolve_hits_in_range ds hits :
  Forall (fun h => - Z.of_nat (length ds) <= snd h < Z.of_nat (length ds)) hits ->
  snd (resolve_hits ds hits) = None
  /\ Forall2 (fun r h => exists d, ds !! slot_of (length ds) h = Some d
                                  /\ r = with_score (fst h) d)
             (fst (resolve_hits ds hits)) hits.
Proof.
  induction 1 as [|h hits Hh _ [IHe IHr]]; simpl; [by split; [|constructor]|].
  assert ((snd h <? Z.of_nat (length ds)) = true) as -> by lia.
  destruct (index_slot ds h Hh) as (d & -> & Hd).
  destruct (resolve_hits ds hits) as [rs e]. simpl in *.
  split; [done|]. constructor; [|done]. eauto.
Qed.

(** Every appended dictionary is a stored one with a score added. *)
Lemma resolve_hits_copies ds hits :
  Forall (fun r => exists x d, d ∈ ds /\ r = with_score x d)
         (fst (resolve_hits ds hits)).
Proof.
  induction hits as [|h hits IH]; simpl; [constructor|].
  destruct (snd h <? Z.of_nat (length ds)); [|done].
  destruct (Py.index ds (snd h)) as [d|] eqn:Hd; [|constructor].
  destruct (resolve_hits ds hits) as [rs e]. simpl in *.
  constructor; [|done]. exists (fst h), d. split; [|done].
  unfold Py.index in Hd.
  destruct (0 <=? snd h); [by eapply list_elem_of_lookup_2|].
  destruct (_ <=? snd h); [by eapply list_elem_of_lookup_2 | done].
Qed.



(** The hits the library draws from the stored vectors: each is the
    squared distance between the query and the vector of its slot. *)
Lemma best_hits index x k :
  Forall (fun h => exists (j : nat) y,
            Faiss.xb index !! j = Some y /\ h = (fvec_L2sqr x y, Z.of_nat j))
         (take k (Faiss.rank (Faiss.scan index x))).
Proof.
  apply Forall_take, FaissFacts.Forall_rank.
  apply Forall_forall. intros h Hh. unfold Faiss.scan in Hh.
  apply elem_of_lookup_imap in Hh as (j & y & -> & Hj). eauto.
Qed.

Lemma Forall2_and_r {A B} (P : A -> B -> Prop) (Q : B -> Prop) l k :
  Forall2 P l k -> Forall Q k -> Forall2 (fun x y => P x y /\ Q y) l k.
Proof.
  induction 1 as [|x y l k Hxy _ IH]; intros HQ; [constructor|].
  inversion HQ; subst. constructor; auto.
Qed.



(** In a built store every one of the [k] positions yields a result,
    however many chunks are stored. *)
Lemma similarity_search_fills_k s index ds query k :
  vector_store s = Some index -> corpus s ds ->
  ds <> [] -> Faiss.ntotal index = length ds -> (0 < k)%nat ->
  exists rs,
    similarity_search query k s
    = (Return (seq (length (heap s)) (length rs)), set_heap (heap s ++ rs) s)
    /\ length rs = k.
Proof.
  intros Hv Hc Hne Hn Hk.
  set (hits := Faiss.knn index (encode query) k).
  assert (Hr : Forall (fun h => - Z.of_nat (length ds) <= snd h < Z.of_nat (length ds)) hits).
  { eapply Forall_impl; [apply FaissFacts.knn_labels|].
    simpl. rewrite Hn. intros h Hh. destruct ds; [done | simpl in *; lia]. }
  destruct (resolve_hits_in_range ds hits Hr) as [He Hrs].
  exists (fst (resolve_hits ds hits)). split.
  - rewrite (similarity_search_eq s index ds) by done. fold hits.
    by rewrite He.
  - rewrite (Forall2_length _ _ _ Hrs). apply FaissFacts.length_knn.
Qed.

(** C9: a search writes no field and no stored dictionary: the state after
    it is the state before with new objects [rs] added at the end of the
    heap, whether it returns or raises.  Each new object is a stored
    dictionary with a score added, the returned references are exactly
    the new objects, and overwriting a returned object with anything
    leaves the stored corpus as it was. *)
Theorem similarity_search_read_only (s : state) (ds : list document)
    (query : string) (k : nat) :
  corpus s ds ->
  let r := similarity_search query k s in
  exists rs,
    snd r = set_heap (heap s ++ rs) s
    /\ vector_store (snd r) = vector_store s
    /\ documents (snd r) = documents s
    /\ corpus (snd r) ds
    /\ Forall (fun d => exists x d0, d0 ∈ ds /\ d = with_score x d0) rs
    /\ forall locs, fst r = Return locs ->
         Forall2 (fun l d => heap (snd r) !! l = Some d) locs rs
         /\ forall l d', l ∈ locs ->
              corpus (set_heap (<[l := d']> (heap (snd r))) (snd r)) ds.
Proof.
  intros Hc r.
  assert (G : forall rs, snd r = set_heap (heap s ++ rs) s ->
            (forall locs, fst r = Return locs ->
                          locs = seq (length (heap s)) (length rs)) ->
            Forall (fun d => exists x d0, d0 ∈ ds /\ d = with_score x d0) rs ->
            exists rs,
              snd r = set_heap (heap s ++ rs) s
              /\ vector_store (snd r) = vector_store s
              /\ documents (snd r) = documents s
              /\ corpus (snd r) ds
              /\ Forall (fun d => exists x d0, d0 ∈ ds /\ d = with_score x d0) rs
              /\ forall locs, fst r = Return locs ->
                   Forall2 (fun l d => heap (snd r) !! l = Some d) locs rs
                   /\ forall l d', l ∈ locs ->
                        corpus (set_heap (<[l := d']> (heap (snd r))) (snd r)) ds).
  { intros rs Hs Hl Hrs. exists rs. rewrite Hs.
    repeat split; try done; [by apply corpus_grow| |].
    - rewrite (Hl locs H). apply fresh_corpus.
    - intros l d' Hin. rewrite (Hl locs H) in Hin.
      apply elem_of_seq in Hin as [Hge _].
      unfold corpus. simpl. eapply Forall2_impl; [exact Hc|].
      intros l0 d0 H0. simpl in H0. apply lookup_lt_Some in H0 as Hlt.
      rewrite list_lookup_insert_ne by lia. by rewrite lookup_app_l. }
  destruct (vector_store s) as [index|] eqn:Hv; [destruct k as [|k]|].
  - pose proof (similarity_search_zero s index query Hv) as Heq.
    fold r in Heq. apply (G []).
    + rewrite Heq. simpl. by rewrite app_nil_r, set_heap_id.
    + intros locs Hl. by rewrite Heq in Hl.
    + constructor.
  - pose proof (similarity_search_eq s index ds query (S k) Hv Hc
                  (Nat.lt_0_succ k)) as Heq.
    simpl in Heq. fold r in Heq.
    apply (G (fst (resolve_hits ds (Faiss.knn index (encode query) (S k))))).
    + by rewrite Heq.
    + intros locs Hl. rewrite Heq in Hl. simpl in Hl.
      destruct (snd (resolve_hits _ _)); [done|]. by inversion Hl.
    + apply resolve_hits_copies.
  - pose proof (similarity_search_uninitialized s query k Hv) as Heq.
    fold r in Heq. apply (G []).
    + rewrite Heq. simpl. by rewrite app_nil_r, set_heap_id.
    + intros locs Hl. by rewrite Heq in Hl.
    + constructor.
Qed.




(** *** The disk *)

Lemma artifact_names_differ path :
  path +:+ "/faiss_index" <> path +:+ "/documents.pkl".
Proof. intros H. apply (inj (String.app path)) in H. discriminate. Qed.

Lemma save_vector_store_eq s index ds path :
  vector_store s = index -> corpus s ds -> files s !! path = None ->
  save_vector_store path s
  = (Return tt,
     {| vector_store := vector_store s; documents := documents s;
        heap := heap s; dirs := {[ path ]} ∪ dirs s;
        files := <[path +:+ "/documents.pkl" := PickleFile ds]>
                   (<[path +:+ "/faiss_index" := IndexFile index]> (files s));
        log := log s ++ [(INFO, "Vector store saved to " +:+ path)] |}).
Proof.
  intros Hv Hc Hf. unfold save_vector_store.
  unfold bind at 1. unfold makedirs. unfold bind at 1. unfold gets at 1.
  rewrite Hf. unfold modify at 1.
  unfold bind at 1. unfold gets at 1. simpl. rewrite Hv.
  unfold bind at 1. unfold write_index, write_file, modify at 1. simpl.
  unfold bind at 1. unfold gets at 1. simpl.
  unfold bind at 1. unfold pickle_dump. unfold bind at 1.
  rewrite (mapM_deref _ ds) by exact Hc.
  reflexivity.
Qed.

Lemma load_vector_store_eq s index ds path :
  files s !! (path +:+ "/faiss_index") = Some (IndexFile index) ->
  files s !! (path +:+ "/documents.pkl") = Some (PickleFile ds) ->
  load_vector_store path s
  = (Return true,
     {| vector_store := index;
        documents := seq (length (heap s)) (length ds);
        heap := heap s ++ ds; dirs := dirs s; files := files s;
        log := log s ++ [(INFO, "Vector store loaded from " +:+ path)] |}).
Proof.
  intros Hi Hp. unfold load_vector_store, try_except.
  unfold bind at 1. unfold read_index. unfold bind at 1. unfold gets at 1.
  rewrite Hi. unfold ret at 1.
  unfold bind at 1. unfold set_vector_store, modify at 1.
  unfold bind at 1. unfold pickle_load. unfold bind at 1. unfold gets at 1.
  simpl. rewrite Hp. rewrite mapM_alloc. reflexivity.
Qed.

(** What a caller sees of a search depends on the index and on the stored
    dictionaries alone. *)
Lemma observe_search s index ds query k :
  vector_store s = Some index -> corpus s ds ->
  observe (similarity_search query k s)
  = match Faiss.search index (encode query) k with
    | inl e => Raise e
    | inr hits =>
        match snd (resolve_hits ds hits) with
        | None => Return (map Some (fst (resolve_hits ds hits)))
        | Some e => Raise e
        end
    end.
Proof.
  intros Hv Hc. destruct k as [|k].
  { by rewrite (similarity_search_zero s index). }
  rewrite (similarity_search_eq s index ds), FaissFacts.search_pos by (done || lia).
  destruct (resolve_hits ds _) as [rs [e|]]; simpl; [done|]. f_equal.
  apply list_eq. intros i. rewrite !list_lookup_fmap.
  destruct (rs !! i) as [d|] eqn:Hd.
  - apply lookup_lt_Some in Hd as Hlt.
    rewrite lookup_seq_lt by done. simpl. by rewrite lookup_fresh, Hd.
  - apply lookup_ge_None in Hd. by rewrite lookup_seq_ge.
Qed.

(** C2 as the code stands: when the two artifacts under [path] can be
    read, the load returns [True] and installs them as they are, whatever
    the number of slots of the index and of chunks of the corpus; nothing
    compares the two. *)
Theorem load_vector_store_unchecked (s : state) (index : Faiss.IndexFlatL2)
    (ds : list document) (path : string) :
  files s !! (path +:+ "/faiss_index") = Some (IndexFile (Some index)) ->
  files s !! (path +:+ "/documents.pkl") = Some (PickleFile ds) ->
  exists s',
    load_vector_store path s = (Return true, s')
    /\ vector_store s' = Some index
    /\ corpus s' ds.
Proof.
  intros Hi Hp. eexists. split; [by apply load_vector_store_eq|].
  split; [done|]. apply fresh_corpus.
Qed.

(** C5: once a store with an index is saved under a path that is not a
    file, every process that finds the resulting files loads them
    successfully, and every search on the loaded store shows its caller
    what the same search shows on the saved one: the same dictionaries in
    the same order, or the same exception. *)
Theorem save_load_search (s : state) (index : Faiss.IndexFlatL2)
    (ds : list document) (path : string) :
  vector_store s = Some index -> corpus s ds -> files s !! path = None ->
  exists s1,
    save_vector_store path s = (Return tt, s1)
    /\ forall s2, files s2 = files s1 ->
         exists s3,
           load_vector_store path s2 = (Return true, s3)
           /\ forall query k,
                observe (similarity_search query k s3)
                = observe (similarity_search query k s).
Proof.
  intros Hv Hc Hf. eexists. split; [by apply save_vector_store_eq|].
  intros s2 Hs2. simpl in Hs2. eexists. split.
  - apply (load_vector_store_eq s2 (Some index) ds); rewrite Hs2.
    + rewrite lookup_insert_ne by (apply not_eq_sym, artifact_names_differ).
      apply lookup_insert_eq.
    + apply lookup_insert_eq.
  - intros query k.
    rewrite (observe_search s index ds) by done.
    apply observe_search; [done|]. apply fresh_corpus.
Qed.

(** *** [generate_response] *)

Lemma generate_response_eq s ds query context_docs :
  Forall2 (fun l d => heap s !! l = Some d) context_docs ds ->
  generate_response query context_docs s
  = match llm_invoke (prompt_of (Py.join (nl +:+ nl) (map context_block ds)) query) with
    | inr response => (Return (Response response), s)
    | inl e =>
        (Return (Str "Error generating response"),
         {| vector_store := vector_store s; documents := documents s;
            heap := heap s; dirs := dirs s; files := files s;
            log := log s ++ [(ERROR, "Error generating LLM response: "
                                     +:+ str_exn e)] |})
    end.
Proof.
  intros Hc. unfold generate_response. unfold bind at 1.
  rewrite (mapM_deref_map context_block _ ds) by done.
  unfold try_except. destruct (llm_invoke _); reflexivity.
Qed.

(** C4 as the code stands: when the language model raises, the handler
    of lines 141-143 logs the exception and [generate_response] returns
    the ordinary string ["Error generating response"]; nothing is raised
    to the caller. *)
Theorem generate_response_swallows (s : state) (ds : list document)
    (query : string) (context_docs : list loc) (e : exn) :
  Forall2 (fun l d => heap s !! l = Some d) context_docs ds ->
  llm_invoke (prompt_of (Py.join (nl +:+ nl) (map context_block ds)) query)
  = inl e ->
  generate_response query context_docs s
  = (Return (Str "Error generating response"),
     {| vector_store := vector_store s; documents := documents s;
        heap := heap s; dirs := dirs s; files := files s;
        log := log s ++ [(ERROR, "Error generating LLM response: "
                                 +:+ str_exn e)] |}).
Proof.
  intros Hc He. rewrite (generate_response_eq s ds) by done. by rewrite He.
Qed.

End Facts.
End RAGFacts.

(** ** The chunker as configured *)
Module ChunkerFacts.
Import RAG.

(** C8 as the chunker stands: with the parameters of [__init__] every
    chunk has at most [chunk_size] characters, and a body shorter than
    [chunk_size] yields exactly one chunk, the body itself, when it is
    not empty. *)
Theorem text_splitter_bounds (prefer : string -> nat) (body : string) :
  Forall (fun chunk => (String.length chunk <= chunk_size)%nat)
         (text_splitter prefer body)
  /\ ((String.length body < chunk_size)%nat -> body <> "" ->
      text_splitter prefer body = [body]).
Proof.
  split.
  - apply SplitterFacts.split_text_bounded.
  - intros Hlt Hne. apply SplitterFacts.split_text_short; [done | lia].
Qed.

Lemma text_splitter_bounds_witness :
  Forall (fun chunk => (String.length chunk <= chunk_size)%nat)
         (text_splitter (fun _ => 0%nat) "fraud")
  /\ text_splitter (fun _ => 0%nat) "fraud" = ["fraud"].
Proof.
  destruct (text_splitter_bounds (fun _ => 0%nat) "fraud") as [Hb Hs].
  split; [exact Hb|]. apply Hs; [unfold chunk_size; simpl; lia | discriminate].
Defined.

(** C8 as stated fails on the empty body: it is shorter than
    [chunk_size] and yields no chunk. *)
Lemma text_splitter_empty_body :
  ~ (forall (prefer : string -> nat) (body : string),
       (String.length body < chunk_size)%nat ->
       length (text_splitter prefer body) = 1%nat).
Proof.
  intros H. specialize (H (fun _ => 0%nat) "").
  unfold text_splitter in H. rewrite SplitterFacts.split_text_empty in H.
  simpl in H. unfold chunk_size in H. lia.
Qed.

End ChunkerFacts.

(** ** The properties on the small world *)
Module ToyFacts.
Import RAG.

Example extract_document : PDFProcessor.extract_sections Toy.document = Toy.sections.
Proof. reflexivity. Qed.

Example build_document :
  snd ((process_documents (E := Toy.collaborators) Toy.sections ;;
        create_vector_store) Toy.fresh)
  = Toy.built.
Proof. reflexivity. Qed.

Lemma built_corpus : corpus Toy.built [Toy.chunk0; Toy.chunk1].
Proof. repeat constructor. Defined.

Lemma extract_sections_titled_bodies_witness :
  Forall PDFProcessor.emitted_ok (PDFProcessor.extract_sections Toy.document)
  /\ PDFProcessor.extract_sections Toy.document
     = PDFProcessor.extract_from_lines 2
         [(1, "SECTION 1"); (1, "theft of property");
          (2, "and its penalties"); (2, "Section 2"); (2, "fraud")].
Proof.
  apply (PDFFacts.extract_sections_titled_bodies Toy.document
           [(1, "preamble line")]).
  - reflexivity.
  - constructor; [reflexivity | constructor].
Defined.

(** C1, at a corpus of two chunks searched with [k = 5]: the search
    returns five results, not two; the three positions the index could
    not fill carry label [-1], pass the test of line 113, and resolve to
    the last chunk, which is returned four times. *)
Theorem similarity_search_overfull :
  observe (similarity_search (E := Toy.collaborators) "fraud" 5 Toy.built)
  = Return [ Some (with_score 0 Toy.chunk1);
             Some (with_score 900 Toy.chunk0);
             Some (with_score Toy.float_max Toy.chunk1);
             Some (with_score Toy.float_max Toy.chunk1);
             Some (with_score Toy.float_max Toy.chunk1) ].
Proof. reflexivity. Qed.

Lemma load_vector_store_unchecked_witness :
  exists s',
    load_vector_store (E := Toy.collaborators) "vector_store" Toy.torn
    = (Return true, s')
    /\ vector_store s' = Some Toy.index
    /\ corpus s' [Toy.chunk0].
Proof.
  apply (RAGFacts.load_vector_store_unchecked Toy.torn Toy.index
           [Toy.chunk0] "vector_store"); reflexivity.
Defined.

(** C2 as stated fails: over artifacts with two slots and one chunk the
    load returns [True], and the loaded store has two slots for one
    chunk. *)
Lemma load_vector_store_torn :
  let r := load_vector_store (E := Toy.collaborators) "vector_store" Toy.torn in
  fst r = Return true
  /\ (Faiss.ntotal <$> vector_store (snd r)) = Some 2%nat
  /\ length (documents (snd r)) = 1%nat.
Proof.
  rewrite (RAGFacts.load_vector_store_eq Toy.torn (Some Toy.index) [Toy.chunk0])
    by reflexivity.
  repeat split.
Qed.



Lemma generate_response_swallows_witness :
  generate_response (E := Toy.collaborators) "What is fraud?" [1%nat] Toy.built
  = (Return (Str "Error generating response"),
     {| vector_store := vector_store Toy.built;
        documents := documents Toy.built;
        heap := heap Toy.built; dirs := dirs Toy.built;
        files := files Toy.built;
        log := log Toy.built
               ++ [(ERROR, "Error generating LLM response: "
                           +:+ str_exn (APIError "service unavailable"))] |}).
Proof.
  apply (RAGFacts.generate_response_swallows Toy.built [Toy.chunk1]
           "What is fraud?" [1%nat] (APIError "service unavailable")).
  - repeat constructor.
  - reflexivity.
Defined.

(** C4 as stated fails: the language model raises, and the caller gets an
    ordinary string, not an exception. *)
Lemma generate_response_no_error :
  llm_invoke (External := Toy.collaborators)
    (prompt_of (Py.join (nl +:+ nl) [context_block Toy.chunk1]) "What is fraud?")
  = inl (APIError "service unavailable")
  /\ fst (generate_response (E := Toy.collaborators) "What is fraud?"
            [1%nat] Toy.built)
     = Return (Str "Error generating response").
Proof. split; reflexivity. Qed.

Lemma save_load_search_witness :
  exists s1,
    save_vector_store (E := Toy.collaborators) "vector_store" Toy.built
    = (Return tt, s1)
    /\ forall s2, files s2 = files s1 ->
         exists s3,
           load_vector_store "vector_store" s2 = (Return true, s3)
           /\ forall query k,
                observe (similarity_search query k s3)
                = observe (similarity_search query k Toy.built).
Proof.
  apply (RAGFacts.save_load_search Toy.built Toy.index
           [Toy.chunk0; Toy.chunk1] "vector_store").
  - reflexivity.
  - exact built_corpus.
  - reflexivity.
Defined.


Lemma similarity_search_read_only_witness :
  let r := similarity_search (E := Toy.collaborators) "fraud" 2 Toy.built in
  exists rs,
    snd r = set_heap (heap Toy.built ++ rs) Toy.built
    /\ vector_store (snd r) = vector_store Toy.built
    /\ documents (snd r) = documents Toy.built
    /\ corpus (snd r) [Toy.chunk0; Toy.chunk1]
    /\ Forall (fun d => exists x d0, d0 ∈ [Toy.chunk0; Toy.chunk1]
                                    /\ d = with_score x d0) rs
    /\ forall locs, fst r = Return locs ->
         Forall2 (fun l d => heap (snd r) !! l = Some d) locs rs
         /\ forall l d', l ∈ locs ->
              corpus (set_heap (<[l := d']> (heap (snd r))) (snd r))
                     [Toy.chunk0; Toy.chunk1].
Proof.
  apply (RAGFacts.similarity_search_read_only Toy.built
           [Toy.chunk0; Toy.chunk1] "fraud" 2).
  exact built_corpus.
Defined.

End ToyFacts.

(** * Further properties of the code *)

(** ** The flat index: the ranking keeps every hit *)
Module RankFacts.
Import Faiss.
Section Facts.
Context {E : External}.

Lemma insert_hit_Permutation h l : insert_hit h l ≡ₚ h :: l.
Proof.
  induction l as [|x l IH]; simpl; [done|].
  destruct (hit_leb h x); [done|]. rewrite IH. apply Permutation_swap.
Qed.

Lemma rank_Permutation l : rank l ≡ₚ l.
Proof.
  induction l as [|h l IH]; simpl; [done|].
  by rewrite insert_hit_Permutation, IH.
Qed.

Lemma scan_lookup index x (j : nat) y :
  xb index !! j = Some y -> (fvec_L2sqr x y, Z.of_nat j) ∈ scan index x.
Proof. intros H. unfold scan. apply elem_of_lookup_imap. by exists j, y. Qed.

Lemma scan_labels_NoDup index x : NoDup (map snd (scan index x)).
Proof.
  unfold scan. change (map ?f ?l) with (f <$> l). rewrite fmap_imap.
  assert (G : forall (l : list vec) (g : nat -> Z),
             (forall i j, g i = g j -> i = j) ->
             NoDup (imap (fun n => snd ∘ (fun y => (fvec_L2sqr x y, g n))) l)).
  { induction l as [|y l IH]; intros g Hg; simpl; [constructor|].
    constructor.
    - intros Hin. apply elem_of_lookup_imap in Hin as (i & z & Hi & _).
      simpl in Hi. apply Hg in Hi. lia.
    - apply (IH (g ∘ S)). intros i j Hij. simpl in Hij. apply Hg in Hij. lia. }
  apply (G (xb index) Z.of_nat). intros i j. lia.
Qed.

End Facts.
End RankFacts.

(** ** The vector store: building, saving, loading, searching *)
Module StoreFacts.
Import RAG.
Section Facts.
Context {E : External}.

Lemma corpus_nonempty s ds : corpus s ds -> ds <> [] -> documents s <> [].
Proof.
  intros Hc Hne Hd. apply Forall2_length in Hc. rewrite Hd in Hc.
  destruct ds; [done | discriminate].
Qed.

Lemma create_vector_store_eq s ds :
  corpus s ds -> ds <> [] ->
  create_vector_store s
  = (Return tt,
     {| vector_store := Some {| Faiss.xb := map encode (map content ds) |};
        documents := documents s; heap := heap s; dirs := dirs s;
        files := files s;
        log := log s ++ [(INFO, "Created FAISS vector store with "
                                +:+ Py.str_nat (length ds) +:+ " documents")] |}).
Proof.
  intros Hc Hne. pose proof (corpus_nonempty s ds Hc Hne) as Hd.
  unfold create_vector_store. unfold bind at 1. unfold gets at 1.
  destruct (documents s) as [|l ls] eqn:Hdocs; [done|].
  unfold bind at 1. rewrite (RAGFacts.mapM_deref_map content (l :: ls) ds s)
    by (unfold corpus in Hc; by rewrite Hdocs in Hc).
  unfold bind, set_vector_store, logger, modify. simpl.
  rewrite Hdocs, length_map. reflexivity.
Qed.

(** X1: over a corpus that is not empty [create_vector_store] builds an
    index with one vector per stored chunk, slot [i] holding the embedding
    of the content of chunk [i]; the corpus, the objects and the disk are
    left as they were. *)
Theorem create_vector_store_aligned (s : state) (ds : list document) :
  corpus s ds -> ds <> [] ->
  exists index s',
    create_vector_store s = (Return tt, s')
    /\ vector_store s' = Some index
    /\ Faiss.xb index = map (fun d => encode (content d)) ds
    /\ Faiss.ntotal index = length (documents s')
    /\ documents s' = documents s /\ heap s' = heap s /\ files s' = files s.
Proof.
  intros Hc Hne. eexists _, _. split; [by apply create_vector_store_eq|].
  simpl. repeat split; try done.
  - by rewrite map_map.
  - unfold Faiss.ntotal. simpl. rewrite !length_map.
    symmetry. by apply Forall2_length in Hc.
Qed.

Lemma create_vector_store_nothing s :
  documents s = [] ->
  create_vector_store s
  = (Raise (ValueError "No documents processed. Call process_documents first."), s).
Proof.
  intros Hd. unfold create_vector_store. unfold bind at 1. unfold gets at 1.
  by rewrite Hd.
Qed.

(** X2: over an empty corpus [create_vector_store] raises the
    [ValueError] of line 53 and changes nothing; an index built earlier
    stays in place. *)
Theorem create_vector_store_empty (s : state) :
  documents s = [] ->
  create_vector_store s
  = (Raise (ValueError "No documents processed. Call process_documents first."), s).
Proof. apply create_vector_store_nothing. Qed.

Lemma process_documents_eq sections s :
  process_documents sections s
  = (Return (seq (length (heap s)) (length (chunks_of sections))),
     {| vector_store := vector_store s;
        documents := seq (length (heap s)) (length (chunks_of sections));
        heap := heap s ++ chunks_of sections; dirs := dirs s; files := files s;
        log := log s ++ [(INFO, "Processed "
                                +:+ Py.str_nat (length (chunks_of sections))
                                +:+ " document chunks")] |}).
Proof.
  unfold process_documents. unfold bind at 1.
  rewrite RAGFacts.outer_loop. simpl.
  unfold bind, set_documents, logger, modify, ret. simpl.
  by rewrite length_seq.
Qed.

(** X3: ingestion followed by a build, as at start-up: when the sections
    yield at least one chunk, the store ends with the chunk records of the
    sections as corpus and an index whose slot [i] holds the embedding of
    chunk [i]. *)
Theorem ingest_then_build (sections : list PDFProcessor.section) (s : state) :
  chunks_of sections <> [] ->
  exists index s',
    (process_documents sections ;; create_vector_store) s = (Return tt, s')
    /\ vector_store s' = Some index
    /\ Faiss.xb index = map (fun d => encode (content d)) (chunks_of sections)
    /\ corpus s' (chunks_of sections).
Proof.
  intros Hne. unfold bind at 1. rewrite process_documents_eq.
  eexists _, _. split.
  - apply (create_vector_store_eq _ (chunks_of sections)); [|done].
    apply RAGFacts.fresh_corpus.
  - simpl. split; [done|]. split; [by rewrite map_map|].
    apply RAGFacts.fresh_corpus.
Qed.

(** X4: when the sections yield no chunk the ingestion empties the corpus
    and the build that follows raises; the index built before, if any, is
    still installed, now over an empty corpus. *)
Theorem ingest_nothing (sections : list PDFProcessor.section) (s : state) :
  chunks_of sections = [] ->
  exists s',
    (process_documents sections ;; create_vector_store) s
    = (Raise (ValueError "No documents processed. Call process_documents first."), s')
    /\ documents s' = [] /\ vector_store s' = vector_store s.
Proof.
  intros Hnil. unfold bind at 1. rewrite process_documents_eq, Hnil.
  eexists. split; [by apply create_vector_store_nothing|]. done.
Qed.

(** *** Loading *)

Lemma load_without_index (s : state) (path : string) :
  (forall index, files s !! (path +:+ "/faiss_index") <> Some (IndexFile index)) ->
  exists msg,
    load_vector_store path s
    = (Return false,
       {| vector_store := vector_store s; documents := documents s;
          heap := heap s; dirs := dirs s; files := files s;
          log := log s ++ [(ERROR, "Error loading vector store: " +:+ msg)] |}).
Proof.
  intros Hno. unfold load_vector_store, try_except.
  unfold bind at 1. unfold read_index. unfold bind at 1. unfold gets at 1.
  destruct (files s !! (path +:+ "/faiss_index")) as [[index|ds|b]|] eqn:Hf;
    [by destruct (Hno index) | | |]; eexists; reflexivity.
Qed.

(** X5: when the index artifact is missing or is no index file, the load
    returns [False], logs one error and leaves the store as it was. *)
Theorem load_vector_store_no_index (s : state) (path : string) :
  (forall index, files s !! (path +:+ "/faiss_index") <> Some (IndexFile index)) ->
  exists msg,
    load_vector_store path s
    = (Return false,
       {| vector_store := vector_store s; documents := documents s;
          heap := heap s; dirs := dirs s; files := files s;
          log := log s ++ [(ERROR, "Error loading vector store: " +:+ msg)] |}).
Proof. apply load_without_index. Qed.

(** X6: when the index artifact is read and the corpus artifact is
    missing or is not a pickled corpus, the load returns [False] with the
    new index already installed over the old corpus: line 85 has assigned
    [self.vector_store] before line 88 fails. *)
Theorem load_vector_store_half (s : state) (path : string)
    (index : Faiss.IndexFlatL2) :
  files s !! (path +:+ "/faiss_index") = Some (IndexFile (Some index)) ->
  (forall ds, files s !! (path +:+ "/documents.pkl") <> Some (PickleFile ds)) ->
  exists msg s',
    load_vector_store path s = (Return false, s')
    /\ vector_store s' = Some index
    /\ documents s' = documents s /\ heap s' = heap s
    /\ log s' = log s ++ [(ERROR, "Error loading vector store: " +:+ msg)].
Proof.
  intros Hi Hno. unfold load_vector_store, try_except.
  unfold bind at 1. unfold read_index. unfold bind at 1. unfold gets at 1.
  rewrite Hi. unfold ret at 1.
  unfold bind at 1. unfold set_vector_store, modify at 1.
  unfold bind at 1. unfold pickle_load. unfold bind at 1. unfold gets at 1.
  simpl.
  destruct (files s !! (path +:+ "/documents.pkl")) as [[i|ds|b]|] eqn:Hf;
    [ | by destruct (Hno ds) | |]; eexists _, _; (split; [reflexivity|done]).
Qed.

(** X7: the load never raises and never writes to the disk: whatever the
    files are, it returns a boolean, and it returns [True] only when both
    artifacts were read. *)
Theorem load_vector_store_returns (s : state) (path : string) :
  exists b s',
    load_vector_store path s = (Return b, s')
    /\ files s' = files s /\ dirs s' = dirs s
    /\ (b = true ->
        exists index ds,
          files s !! (path +:+ "/faiss_index") = Some (IndexFile index)
          /\ files s !! (path +:+ "/documents.pkl") = Some (PickleFile ds)).
Proof.
  unfold load_vector_store, try_except.
  unfold bind at 1. unfold read_index. unfold bind at 1. unfold gets at 1.
  destruct (files s !! (path +:+ "/faiss_index")) as [[index|ds0|b0]|] eqn:Hi.
  2-4: (eexists _, _; split; [reflexivity|]; by repeat split).
  unfold ret at 1.
  unfold bind at 1. unfold set_vector_store, modify at 1.
  unfold bind at 1. unfold pickle_load. unfold bind at 1. unfold gets at 1.
  simpl.
  destruct (files s !! (path +:+ "/documents.pkl")) as [[i|ds|b0]|] eqn:Hp.
  1,3,4: (eexists _, _; split; [reflexivity|]; by repeat split).
  rewrite RAGFacts.mapM_alloc.
  eexists _, _. split; [reflexivity|]. repeat split. eauto.
Qed.

(** *** Saving *)

(** X8: a save that succeeds writes the two artifacts under [path] (the
    index, and the stored dictionaries by value) and nothing else: every
    other file, the index in memory, the corpus and the objects are as
    before. *)
Theorem save_vector_store_frame (s : state) (index : Faiss.IndexFlatL2)
    (ds : list document) (path : string) :
  vector_store s = Some index -> corpus s ds -> files s !! path = None ->
  exists s',
    save_vector_store path s = (Return tt, s')
    /\ files s' !! (path +:+ "/faiss_index") = Some (IndexFile (Some index))
    /\ files s' !! (path +:+ "/documents.pkl") = Some (PickleFile ds)
    /\ (forall p, p <> path +:+ "/faiss_index" -> p <> path +:+ "/documents.pkl" ->
                  files s' !! p = files s !! p)
    /\ vector_store s' = vector_store s /\ documents s' = documents s
    /\ heap s' = heap s.
Proof.
  intros Hv Hc Hf. eexists. split; [by apply RAGFacts.save_vector_store_eq|].
  simpl. repeat split.
  - rewrite lookup_insert_ne
      by (apply not_eq_sym, RAGFacts.artifact_names_differ).
    apply lookup_insert_eq.
  - apply lookup_insert_eq.
  - intros p H1 H2. by rewrite !lookup_insert_ne.
Qed.

(** X9: when [path] names an existing file, [os.makedirs] raises and the
    save stops there: nothing is written, nothing is logged. *)
Theorem save_vector_store_blocked (s : state) (path : string) (f : file) :
  files s !! path = Some f ->
  save_vector_store path s = (Raise (FileExistsError path), s).
Proof.
  intros Hf. unfold save_vector_store.
  unfold bind at 1. unfold makedirs. unfold bind at 1. unfold gets at 1.
  by rewrite Hf.
Qed.

(** X10: saving before any index was built or loaded does not fail:
    [faiss.write_index] writes the marker of a missing index, the corpus
    is pickled and the save is logged like any other.  Whoever then loads
    these files is told [True] and has a store without an index, on which
    every search raises the [ValueError] of line 100. *)
Theorem save_vector_store_unset (s : state) (ds : list document)
    (path : string) :
  vector_store s = None -> corpus s ds -> files s !! path = None ->
  exists s1,
    save_vector_store path s = (Return tt, s1)
    /\ files s1 !! (path +:+ "/faiss_index") = Some (IndexFile None)
    /\ files s1 !! (path +:+ "/documents.pkl") = Some (PickleFile ds)
    /\ dirs s1 = {[ path ]} ∪ dirs s
    /\ log s1 = log s ++ [(INFO, "Vector store saved to " +:+ path)]
    /\ forall s2, files s2 = files s1 ->
         exists s3,
           load_vector_store path s2 = (Return true, s3)
           /\ vector_store s3 = None /\ corpus s3 ds
           /\ forall query k,
                similarity_search query k s3
                = (Raise (ValueError "Vector store not initialized"), s3).
Proof.
  intros Hv Hc Hf. eexists. split; [by apply RAGFacts.save_vector_store_eq|].
  simpl.
  assert (Hi : forall fs : gmap string file,
            <[path +:+ "/documents.pkl" := PickleFile ds]>
              (<[path +:+ "/faiss_index" := IndexFile None]> fs)
            !! (path +:+ "/faiss_index") = Some (IndexFile None)).
  { intros fs. rewrite lookup_insert_ne
      by (apply not_eq_sym, RAGFacts.artifact_names_differ).
    apply lookup_insert_eq. }
  split; [apply Hi|]. split; [apply lookup_insert_eq|].
  split; [done|]. split; [done|].
  intros s2 Hs2. eexists. split.
  - apply (RAGFacts.load_vector_store_eq s2 None ds); rewrite Hs2.
    + apply Hi.
    + apply lookup_insert_eq.
  - split; [done|]. split; [apply RAGFacts.fresh_corpus|].
    intros query k. by apply RAGFacts.similarity_search_uninitialized.
Qed.

(** *** Searching *)

Lemma resolve_hits_length ds hits :
  (length (fst (resolve_hits ds hits)) <= length hits)%nat.
Proof.
  induction hits as [|h hits IH]; simpl; [done|].
  destruct (snd h <? Z.of_nat (length ds)); [|lia].
  destruct (Py.index ds (snd h)); [|simpl; lia].
  destruct (resolve_hits ds hits). simpl in *. lia.
Qed.

(** X11: a search never returns more than [k] results, whatever the index
    and the corpus hold. *)
Theorem similarity_search_at_most_k (s s' : state) (ds : list document)
    (query : string) (k : nat) (results : list loc) :
  corpus s ds ->
  similarity_search query k s = (Return results, s') ->
  (length results <= k)%nat.
Proof.
  intros Hc Hr. destruct (vector_store s) as [index|] eqn:Hv.
  - destruct k as [|k];
      [by rewrite (RAGFacts.similarity_search_zero s index query Hv) in Hr|].
    rewrite (RAGFacts.similarity_search_eq s index ds query (S k) Hv Hc
               (Nat.lt_0_succ k)) in Hr.
    simpl in Hr.
    pose proof (resolve_hits_length ds (Faiss.knn index (encode query) (S k))) as Hl.
    rewrite FaissFacts.length_knn in Hl.
    destruct (snd (resolve_hits _ _)); [done|].
    inversion Hr; subst. by rewrite length_seq.
  - by rewrite (RAGFacts.similarity_search_uninitialized s query k Hv) in Hr.
Qed.

(** X12: in a store whose index and corpus are aligned, a search for
    [k > 0] results with [k] at most the number of chunks returns exactly [k]
    results, from [k] different slots, each the stored chunk of its slot
    with its distance to the query as score; and these are the nearest:
    a chunk that is not returned is at least as far from the query as
    every chunk that is. *)
Theorem similarity_search_nearest (s : state) (index : Faiss.IndexFlatL2)
    (ds : list document) (query : string) (k : nat) :
  vector_store s = Some index -> corpus s ds ->
  Faiss.ntotal index = length ds -> (0 < k <= length ds)%nat ->
  let hits := Faiss.knn index (encode query) k in
  exists rs,
    similarity_search query k s
    = (Return (seq (length (heap s)) (length rs)), set_heap (heap s ++ rs) s)
    /\ length rs = k
    /\ NoDup (map snd hits)
    /\ Forall2 (fun r h => exists (j : nat) d y,
                  snd h = Z.of_nat j /\ ds !! j = Some d
                  /\ Faiss.xb index !! j = Some y
                  /\ fst h = fvec_L2sqr (encode query) y
                  /\ r = with_score (fst h) d) rs hits
    /\ forall (j : nat) y,
         Faiss.xb index !! j = Some y -> Z.of_nat j ∉ map snd hits ->
         Forall (fun h => fst h <= fvec_L2sqr (encode query) y) hits.
Proof.
  intros Hv Hc Hn Hk hits.
  set (ranked := Faiss.rank (Faiss.scan index (encode query))).
  assert (Hhits : hits = take k ranked).
  { unfold hits. apply FaissFacts.knn_enough. lia. }
  assert (Hfrom : Forall (fun h => exists (j : nat) y,
                    Faiss.xb index !! j = Some y
                    /\ h = (fvec_L2sqr (encode query) y, Z.of_nat j)) hits).
  { rewrite Hhits. apply RAGFacts.best_hits. }
  assert (Hr : Forall (fun h => - Z.of_nat (length ds) <= snd h < Z.of_nat (length ds)) hits).
  { eapply Forall_impl; [exact Hfrom|]. intros h (j & y & Hj & ->). simpl.
    apply lookup_lt_Some in Hj. unfold Faiss.ntotal in Hn. lia. }
  destruct (RAGFacts.resolve_hits_in_range ds hits Hr) as [He Hrs].
  exists (fst (resolve_hits ds hits)). split; [|split; [|split; [|split]]].
  - rewrite (RAGFacts.similarity_search_eq s index ds) by (done || lia).
    fold hits. by rewrite He.
  - rewrite (Forall2_length _ _ _ Hrs). apply FaissFacts.length_knn.
  - rewrite Hhits. change (map ?f ?l) with (f <$> l). rewrite fmap_take.
    eapply sublist_NoDup; [|apply sublist_take].
    unfold ranked. rewrite RankFacts.rank_Permutation.
    apply RankFacts.scan_labels_NoDup.
  - eapply Forall2_impl; [apply (RAGFacts.Forall2_and_r _ _ _ _ Hrs Hfrom)|].
    intros r h [(d & Hd & ->) (j & y & Hj & ->)]. simpl in *.
    exists j, d, y. unfold slot_of in Hd. simpl in Hd.
    assert ((Z.of_nat j <? 0) = false) as Hneg by (apply Z.ltb_ge; lia).
    rewrite Hneg, Nat2Z.id in Hd. done.
  - intros j y Hj Hnot. apply Forall_forall. intros h Hh.
    assert (Hin : (fvec_L2sqr (encode query) y, Z.of_nat j) ∈ ranked).
    { unfold ranked. rewrite RankFacts.rank_Permutation.
      by apply RankFacts.scan_lookup. }
    rewrite <- (take_drop k ranked) in Hin.
    apply elem_of_app in Hin as [Hin|Hin].
    + destruct Hnot. rewrite Hhits.
      change (map ?f ?l) with (f <$> l).
      by apply (list_elem_of_fmap_2' snd _ _ _ Hin).
    + pose proof (FaissFacts.rank_sorted (Faiss.scan index (encode query)))
        as Hsorted.
      fold ranked in Hsorted. rewrite <- (take_drop k ranked) in Hsorted.
      rewrite Hhits in Hh.
      pose proof (StronglySorted_app_1_elem_of _ _ _ _ _ Hsorted Hh Hin) as Hle.
      unfold Faiss.hit_le in Hle. simpl in Hle. lia.
Qed.

(** *** Generating *)

(** X13: over live context documents [generate_response] always returns:
    it never raises, and it writes nothing but the log.  When the language
    model answers, the answer is passed on untouched and the state is not
    changed at all. *)
Theorem generate_response_returns (s : state) (ds : list document)
    (query : string) (context_docs : list loc) :
  Forall2 (fun l d => heap s !! l = Some d) context_docs ds ->
  exists t s',
    generate_response query context_docs s = (Return t, s')
    /\ vector_store s' = vector_store s /\ documents s' = documents s
    /\ heap s' = heap s /\ files s' = files s
    /\ (forall r,
          llm_invoke (prompt_of (Py.join (nl +:+ nl) (map context_block ds)) query)
          = inr r ->
          t = Response r /\ s' = s).
Proof.
  intros Hc. rewrite (RAGFacts.generate_response_eq s ds) by done.
  destruct (llm_invoke _) as [e|r0].
  - eexists _, _. split; [reflexivity|]. by repeat split.
  - eexists _, _. split; [reflexivity|]. repeat split; by inversion H.
Qed.

End Facts.
End StoreFacts.

(** ** Stripped strings *)
Module TrimFacts.
Import Py Reading.

Lemma app_cons c a b : String c a +:+ b = String c (a +:+ b).
Proof. reflexivity. Qed.

Lemma app_empty_r s : s +:+ "" = s.
Proof. induction s as [|c s IH]; [done | by rewrite app_cons, IH]. Qed.

Lemma app_assoc_s a b c : (a +:+ b) +:+ c = a +:+ (b +:+ c).
Proof. induction a as [|x a IH]; [done | by rewrite !app_cons, IH]. Qed.

Lemma rev_app_eq s1 s2 : String.rev_app s1 s2 = String.rev s1 +:+ s2.
Proof.
  revert s2. unfold String.rev.
  induction s1 as [|c s1 IH]; intros s2; simpl; [done|].
  rewrite (IH (String c s2)), (IH (String c "")), app_assoc_s. reflexivity.
Qed.

Lemma rev_append a b : String.rev (a +:+ b) = String.rev b +:+ String.rev a.
Proof.
  induction a as [|c a IH]; simpl; [by rewrite app_empty_r|].
  unfold String.rev in *. simpl.
  rewrite (rev_app_eq (a +:+ b)), (rev_app_eq a). unfold String.rev.
  rewrite IH, app_assoc_s. reflexivity.
Qed.

Lemma rev_involutive s : String.rev (String.rev s) = s.
Proof.
  induction s as [|c s IH]; [done|].
  change (String c s) with (String c "" +:+ s) at 1.
  rewrite rev_append, rev_append, IH. reflexivity.
Qed.

Lemma first_visible_lstrip s : first_visible (lstrip s).
Proof.
  induction s as [|c s IH]; simpl; [done|].
  destruct (isspace c) eqn:Hc; [done|]. simpl. done.
Qed.

Lemma lstrip_visible s : first_visible s -> lstrip s = s.
Proof. destruct s as [|c s]; simpl; [done|]. by intros ->. Qed.

Lemma first_visible_app a b :
  a <> "" -> first_visible (a +:+ b) <-> first_visible a.
Proof. destruct a; [done|]. rewrite app_cons. simpl. tauto. Qed.

Lemma rev_nonempty s : s <> "" -> String.rev s <> "".
Proof. intros H Hr. apply H. by apply PyFacts.rev_empty. Qed.

Lemma last_visible_cons c s : s <> "" -> last_visible (String c s) <-> last_visible s.
Proof.
  intros Hne. unfold last_visible.
  change (String c s) with (String c "" +:+ s). rewrite rev_append.
  apply first_visible_app. by apply rev_nonempty.
Qed.

Lemma last_visible_lstrip s : last_visible s -> last_visible (lstrip s).
Proof.
  induction s as [|c s IH]; simpl; [done|].
  destruct (isspace c); [|done]. intros H.
  destruct s as [|d s]; [done|]. apply IH.
  by apply (last_visible_cons c (String d s)).
Qed.

(** What [strip] returns neither starts nor ends with whitespace. *)
Lemma strip_trimmed s : trimmed (strip s).
Proof.
  unfold strip, rstrip, trimmed, last_visible. rewrite rev_involutive.
  split; [|apply first_visible_lstrip].
  apply (last_visible_lstrip (String.rev (lstrip s))).
  unfold last_visible. rewrite rev_involutive. apply first_visible_lstrip.
Qed.

(** [strip] leaves such a string alone. *)
Lemma strip_fixed s : trimmed s -> strip s = s.
Proof.
  intros [Hf Hl]. unfold strip, rstrip.
  rewrite (lstrip_visible s Hf), (lstrip_visible _ Hl). apply rev_involutive.
Qed.

Lemma strip_idempotent s : strip (strip s) = strip s.
Proof. apply strip_fixed, strip_trimmed. Qed.

Lemma strip_body_line raw : strip raw <> "" -> body_line (strip raw).
Proof. intros H. split; [apply strip_trimmed | done]. Qed.

Lemma strip_app_space s : trimmed s -> s <> "" -> strip (s +:+ " ") = s.
Proof.
  intros [Hf Hl] Hne. unfold strip, rstrip.
  rewrite (lstrip_visible (s +:+ " ")) by by apply first_visible_app.
  rewrite rev_append. simpl.
  change ("" +:+ String.rev s) with (String.rev s).
  rewrite (lstrip_visible _ Hl). apply rev_involutive.
Qed.

Lemma join_nonempty (body : list string) :
  Forall body_line body -> body <> [] -> join " " body <> "".
Proof.
  intros Hb Hne. destruct body as [|x body]; [done|].
  inversion Hb as [|? ? [_ Hx] _]; subst.
  destruct body; simpl; [done|]. by destruct x.
Qed.

Lemma join_trimmed (body : list string) :
  Forall body_line body -> body <> [] -> trimmed (join " " body).
Proof.
  induction 1 as [|x body [[Hf Hl] Hx] Hb IH]; intros _; [done|].
  destruct body as [|y body]; [done|].
  destruct IH as [IHf IHl]; [done|].
  change (join " " (x :: y :: body)) with (x +:+ " " +:+ join " " (y :: body)).
  split.
  - by apply first_visible_app.
  - unfold last_visible. rewrite rev_append, rev_append, app_assoc_s.
    apply first_visible_app; [|exact IHl].
    apply rev_nonempty, join_nonempty; [done | discriminate].
Qed.

Lemma gathered_join (body : list string) :
  body <> [] -> gathered body = join " " body +:+ " ".
Proof.
  induction body as [|x body IH]; intros Hne; [done|].
  destruct body as [|y body]; [by simpl; rewrite app_empty_r|].
  change (gathered (x :: y :: body)) with (x +:+ " " +:+ gathered (y :: body)).
  rewrite IH by discriminate.
  change (join " " (x :: y :: body)) with (x +:+ " " +:+ join " " (y :: body)).
  by rewrite !app_assoc_s.
Qed.

Lemma gathered_snoc body line :
  gathered (body ++ [line]) = gathered body +:+ line +:+ " ".
Proof.
  induction body as [|x body IH]; simpl; [done|].
  rewrite IH. by rewrite !app_assoc_s.
Qed.

Lemma gathered_truthy (body : list string) :
  Forall body_line body -> truthy (gathered body) = negb (bool_decide (body = [])).
Proof.
  destruct 1 as [|x body [_ Hx] _]; [done|]. simpl. by destruct x.
Qed.

(** The stripped gathered text is the body lines joined by single
    spaces. *)
Lemma strip_gathered_join (body : list string) :
  Forall body_line body -> body <> [] -> strip (gathered body) = join " " body.
Proof.
  intros Hb Hne. rewrite gathered_join by done.
  apply strip_app_space; [by apply join_trimmed | by apply join_nonempty].
Qed.

End TrimFacts.

(** ** The section extractor, line by line *)
Module ReadingFacts.
Import PDFProcessor Reading.

Lemma save_previous_emit page st body :
  current_content st = gathered body -> Forall body_line body ->
  save_previous page st = sections st ++ emit (current_section st) body page.
Proof.
  intros Hc Hb. unfold save_previous, emit.
  rewrite Hc, (TrimFacts.gathered_truthy body Hb).
  destruct (current_section st) as [|c t]; simpl; [by rewrite app_nil_r|].
  destruct body as [|x body]; simpl; [by rewrite app_nil_r|].
  do 3 f_equal.
  by apply (TrimFacts.strip_gathered_join (x :: body)).
Qed.

Lemma fold_sections_from last lines st body :
  current_content st = gathered body -> Forall body_line body ->
  save_previous last (fold_left step_tagged lines st)
  = sections st ++ sections_from (current_section st) body last lines.
Proof.
  revert st body. induction lines as [|l lines IH]; intros st body Hc Hb; simpl.
  - by apply save_previous_emit.
  - unfold step_tagged at 2. unfold step_line.
    destruct (Py.truthy (Py.strip (snd l))) eqn:Ht; simpl; [|by apply IH].
    apply PyFacts.truthy_true in Ht.
    destruct (is_header (Py.strip (snd l))).
    + rewrite (IH _ []) by done. simpl.
      rewrite (save_previous_emit (fst l) st body) by done.
      by rewrite <- app_assoc.
    + rewrite (IH _ (body ++ [Py.strip (snd l)])); [done| |].
      * simpl. by rewrite Hc, TrimFacts.gathered_snoc.
      * apply Forall_app. split; [done|]. constructor; [|done].
        by apply TrimFacts.strip_body_line.
Qed.

Lemma extract_sections_from_lines (document : list string) :
  extract_sections document
  = sections_from "" [] (last_page_number (extract_text_by_pages document))
                        (tagged_lines (extract_text_by_pages document)).
Proof.
  unfold extract_sections. rewrite PDFFacts.fold_pages_lines.
  by rewrite (fold_sections_from _ _ initial []).
Qed.

(** X14: [extract_sections] gives, for every header line that is followed
    by at least one body line before the next header, one section: its
    title is the stripped header and its body the stripped body lines
    joined by single spaces; the page is the one of the header that
    closes the section, or the last page of the document. *)
Theorem extract_sections_reading (document : list string) :
  extract_sections document
  = sections_from "" [] (last_page_number (extract_text_by_pages document))
                        (tagged_lines (extract_text_by_pages document)).
Proof. apply extract_sections_from_lines. Qed.

Lemma emit_trimmed title body page :
  trimmed title -> Forall body_line body ->
  Forall (fun sec => trimmed (section_title sec) /\ trimmed (content sec))
         (emit title body page).
Proof.
  intros Ht Hb. unfold emit. destruct title; [constructor|].
  destruct body as [|x body]; [constructor|].
  constructor; [|constructor]. split; [done|].
  by apply TrimFacts.join_trimmed.
Qed.

Lemma sections_from_trimmed title body last lines :
  trimmed title -> Forall body_line body ->
  Forall (fun sec => trimmed (section_title sec) /\ trimmed (content sec))
         (sections_from title body last lines).
Proof.
  revert title body. induction lines as [|l lines IH]; intros title body Ht Hb;
    simpl; [by apply emit_trimmed|].
  destruct (Py.truthy (Py.strip (snd l))) eqn:Hl; simpl; [|by apply IH].
  apply PyFacts.truthy_true in Hl.
  destruct (is_header (Py.strip (snd l))).
  - apply Forall_app. split; [by apply emit_trimmed|].
    apply IH; [apply TrimFacts.strip_trimmed | constructor].
  - apply IH; [done|]. apply Forall_app. split; [done|].
    constructor; [|done]. by apply TrimFacts.strip_body_line.
Qed.

(** X15: titles and bodies come out stripped: stripping one again changes
    nothing. *)
Theorem extract_sections_stripped (document : list string) :
  Forall (fun sec => Py.strip (section_title sec) = section_title sec
                     /\ Py.strip (content sec) = content sec)
         (extract_sections document).
Proof.
  rewrite extract_sections_from_lines.
  eapply Forall_impl; [apply sections_from_trimmed; [done | constructor]|].
  intros sec [Ht Hc]. split; by apply TrimFacts.strip_fixed.
Qed.

Lemma emit_titles title body page :
  map section_title (emit title body page) `sublist_of` opening title.
Proof.
  unfold emit, opening. destruct title; [done|].
  destruct body; simpl; [apply sublist_nil_l | done].
Qed.

Lemma sections_from_titles title body last lines :
  map section_title (sections_from title body last lines)
  `sublist_of` opening title ++ header_lines lines.
Proof.
  revert title body. induction lines as [|l lines IH]; intros title body; simpl.
  - rewrite app_nil_r. apply emit_titles.
  - destruct (Py.truthy (Py.strip (snd l))) eqn:Hl; simpl; [|by apply IH].
    destruct (is_header (Py.strip (snd l))); simpl; [|by apply IH].
    rewrite map_app. apply sublist_app; [apply emit_titles|].
    specialize (IH (Py.strip (snd l)) []). unfold opening in IH at 1.
    destruct (Py.strip (snd l)); [done | exact IH].
Qed.

(** X16: the titles of the sections are header lines of the document, in
    reading order: they form a subsequence of the stripped header lines.  So there are at most as
    many sections as header lines, and none in a document without
    one. *)
Theorem extract_sections_titles (document : list string) :
  let headers := header_lines (tagged_lines (extract_text_by_pages document)) in
  map section_title (extract_sections document) `sublist_of` headers
  /\ (length (extract_sections document) <= length headers)%nat.
Proof.
  intros headers.
  assert (H : map section_title (extract_sections document) `sublist_of` headers).
  { rewrite extract_sections_from_lines. apply (sections_from_titles "" []). }
  split; [done|]. apply sublist_length in H. by rewrite length_map in H.
Qed.

Lemma emit_pages title body page :
  Forall (fun sec => page_number sec = page) (emit title body page).
Proof.
  unfold emit. destruct title; [constructor|].
  destruct body; repeat constructor.
Qed.

Lemma sections_from_pages_ge lo title body last lines :
  lo <= last -> Forall (fun l => lo <= fst l) lines ->
  Forall (fun sec => lo <= page_number sec) (sections_from title body last lines).
Proof.
  intros Hlast Hl. revert title body.
  induction Hl as [|l lines Hlo Hl IH]; intros title body; simpl.
  - eapply Forall_impl; [apply emit_pages|]. simpl. intros sec ->. done.
  - destruct (negb (Py.truthy (Py.strip (snd l)))); [apply IH|].
    destruct (is_header (Py.strip (snd l))); [|apply IH].
    apply Forall_app. split; [|apply IH].
    eapply Forall_impl; [apply emit_pages|]. simpl. intros sec ->. done.
Qed.

Lemma sections_from_pages_le title body last lines :
  Forall (fun l => fst l <= last) lines ->
  Forall (fun sec => page_number sec <= last) (sections_from title body last lines).
Proof.
  intros Hl. revert title body.
  induction Hl as [|l lines Hlo Hl IH]; intros title body; simpl.
  - eapply Forall_impl; [apply emit_pages|]. simpl. intros sec ->. done.
  - destruct (negb (Py.truthy (Py.strip (snd l)))); [apply IH|].
    destruct (is_header (Py.strip (snd l))); [|apply IH].
    apply Forall_app. split; [|apply IH].
    eapply Forall_impl; [apply emit_pages|]. simpl. intros sec ->. done.
Qed.

Lemma sections_from_pages_sorted title body last lines :
  Forall (fun l => fst l <= last) lines ->
  StronglySorted Z.le (map fst lines) ->
  StronglySorted Z.le (map page_number (sections_from title body last lines)).
Proof.
  intros Hl. revert title body.
  induction Hl as [|l lines Hlo Hl IH]; intros title body Hs; simpl.
  - unfold emit. destruct title; [constructor|].
    destruct body; repeat constructor.
  - simpl in Hs. inversion Hs as [|? ? Hs' Hge]; subst.
    destruct (negb (Py.truthy (Py.strip (snd l)))); [by apply IH|].
    destruct (is_header (Py.strip (snd l))); [|by apply IH].
    rewrite map_app. apply StronglySorted_app_2; [| |by apply IH].
    + intros p1 p2 H1 H2.
      apply list_elem_of_fmap in H1 as (s1 & -> & H1).
      apply list_elem_of_fmap in H2 as (s2 & -> & H2).
      pose proof (emit_pages title body (fst l)) as He.
      rewrite Forall_forall in He. rewrite (He s1 H1).
      assert (Hall : Forall (fun sec => fst l <= page_number sec)
                            (sections_from (Py.strip (snd l)) [] last lines)).
      { apply sections_from_pages_ge; [done|]. by rewrite Forall_map in Hge. }
      rewrite Forall_forall in Hall. by apply Hall.
    + unfold emit. destruct title; [constructor|].
      destruct body; repeat constructor.
Qed.

Lemma numbered_pages_sorted (g : nat -> Z) (document : list string) :
  (forall i j, (i <= j)%nat -> g i <= g j) ->
  StronglySorted (fun a b => pd_page_number a <= pd_page_number b)
    (imap (fun i text => {| pd_page_number := g i; pd_content := text |}) document).
Proof.
  revert g. induction document as [|text document IH]; intros g Hg; simpl;
    [constructor|].
  constructor.
  - apply (IH (g ∘ S)). intros i j Hij. simpl. apply Hg. lia.
  - apply Forall_forall. intros pd Hpd.
    apply elem_of_lookup_imap in Hpd as (i & t & -> & _). simpl.
    apply Hg. lia.
Qed.

Lemma tagged_lines_sorted pages :
  StronglySorted (fun a b => pd_page_number a <= pd_page_number b) pages ->
  StronglySorted Z.le (map fst (tagged_lines pages)).
Proof.
  induction 1 as [|pd pages Hs IH Hall]; simpl; [constructor|].
  rewrite map_app. apply StronglySorted_app_2; [| |done].
  - intros p1 p2 H1 H2.
    apply list_elem_of_fmap in H1 as (l1 & -> & H1).
    apply list_elem_of_fmap in H1 as (r1 & -> & _). simpl.
    apply list_elem_of_fmap in H2 as (l2 & -> & H2).
    unfold tagged_lines in H2. apply list_elem_of_In, in_flat_map in H2
      as (pd2 & Hpd2 & Hl2).
    apply list_elem_of_In, list_elem_of_fmap in Hl2 as (r2 & -> & _). simpl.
    rewrite Forall_forall in Hall. apply Hall. by apply list_elem_of_In.
  - rewrite map_map. simpl.
    generalize (Py.split_lines (pd_content pd)). intros rs.
    induction rs as [|r rs IHr]; simpl; constructor; [done|].
    apply Forall_forall. intros p Hp.
    apply list_elem_of_fmap in Hp as (? & -> & _). done.
Qed.

Lemma tagged_lines_bounds lo hi pages :
  Forall (fun pd => lo <= pd_page_number pd <= hi) pages ->
  Forall (fun l => lo <= fst l <= hi) (tagged_lines pages).
Proof.
  intros H. apply Forall_forall. intros l Hl.
  unfold tagged_lines in Hl. apply list_elem_of_In, in_flat_map in Hl
    as (pd & Hpd & Hl).
  apply list_elem_of_In, list_elem_of_fmap in Hl as (r & -> & _). simpl.
  rewrite Forall_forall in H. apply H. by apply list_elem_of_In.
Qed.

Lemma page_numbers_bounds (document : list string) :
  Forall (fun pd => 1 <= pd_page_number pd <= Z.of_nat (length document))
         (extract_text_by_pages document).
Proof.
  apply Forall_forall. intros pd Hpd. unfold extract_text_by_pages in Hpd.
  apply elem_of_lookup_imap in Hpd as (i & t & -> & Hi). simpl.
  apply lookup_lt_Some in Hi. lia.
Qed.

Lemma last_page_number_eq (document : list string) :
  document <> [] ->
  last_page_number (extract_text_by_pages document) = Z.of_nat (length document).
Proof.
  intros Hne. unfold last_page_number, extract_text_by_pages.
  rewrite last_lookup, length_imap, list_lookup_imap.
  destruct (lookup_lt_is_Some_2 document (pred (length document))) as [t Ht].
  { destruct document; [done | simpl; lia]. }
  rewrite Ht. simpl. destruct document; [done | simpl; lia].
Qed.

(** X17: pages are numbered from 1, every section carries the number of a
    page of the document, and the sections come out with page numbers
    that never decrease. *)
Theorem extract_sections_pages (document : list string) :
  Forall (fun sec => 1 <= page_number sec <= Z.of_nat (length document))
         (extract_sections document)
  /\ StronglySorted Z.le (map page_number (extract_sections document)).
Proof.
  rewrite extract_sections_from_lines.
  destruct document as [|text document]; [by split; constructor|].
  rewrite last_page_number_eq by discriminate.
  set (doc := text :: document).
  pose proof (tagged_lines_bounds _ _ _ (page_numbers_bounds doc)) as Hb.
  split.
  - apply Forall_forall. intros sec Hsec. split.
    + eapply (Forall_forall (fun sec => 1 <= page_number sec));
        [apply sections_from_pages_ge|exact Hsec].
      * simpl. lia.
      * eapply Forall_impl; [exact Hb|]. simpl. lia.
    + eapply (Forall_forall (fun sec => page_number sec <= _));
        [apply sections_from_pages_le|exact Hsec].
      eapply Forall_impl; [exact Hb|]. simpl. lia.
  - apply sections_from_pages_sorted.
    + eapply Forall_impl; [exact Hb|]. simpl. lia.
    + apply tagged_lines_sorted.
      apply (numbered_pages_sorted (fun i => Z.of_nat i + 1)). lia.
Qed.

End ReadingFacts.

(** ** The letter generator *)
Module LetterFacts.
Import RAG LetterGenerator.
Section Facts.
Context {E : External}.
Variable message_content : response -> string.

Lemma add_log_nil s : add_log s [] = s.
Proof. destruct s. unfold add_log. simpl. by rewrite app_nil_r. Qed.

Lemma add_log_app s a b : add_log (add_log s a) b = add_log s (a ++ b).
Proof. unfold add_log. simpl. by rewrite app_assoc. Qed.

Lemma generate_response_answer s ds query context_docs :
  Forall2 (fun l d => heap s !! l = Some d) context_docs ds ->
  generate_response query context_docs s
  = (Return (fst (answer_of query ds)), add_log s (snd (answer_of query ds))).
Proof.
  intros Hc. rewrite (RAGFacts.generate_response_eq s ds) by done.
  unfold answer_of. destruct (llm_invoke _); simpl; [done|].
  by rewrite add_log_nil.
Qed.

Lemma format_context_eq s ds docs :
  Forall2 (fun l d => heap s !! l = Some d) docs ds ->
  _format_context docs s
  = (Return (Py.join (nl +:+ nl) (map format_block ds)), s).
Proof.
  intros Hc. unfold _format_context. unfold bind at 1.
  by rewrite (RAGFacts.mapM_deref_map format_block docs ds).
Qed.

Lemma join_tags_eq sep c l s :
  tags c = Some l -> join_tags sep c s = (Return (Py.join sep l), s).
Proof. intros H. unfold join_tags. by rewrite H. Qed.

Lemma heap_add_log s lines : heap (add_log s lines) = heap s.
Proof. reflexivity. Qed.

(** The whole run over a built store, step by step. *)
Lemma generate_formal_letter_built s index ds c l :
  vector_store s = Some index -> corpus s ds ->
  ds <> [] -> Faiss.ntotal index = length ds -> tags c = Some l ->
  exists rs,
    length rs = 7%nat
    /\ let locs := seq (length (heap s)) 7 in
       let context := Py.join (nl +:+ nl) (map format_block rs) in
       let a1 := answer_of (letter_prompt c (Py.join ", " l) context) rs in
       let a2 := answer_of (arguments_prompt c context) rs in
       generate_formal_letter message_content c s
       = (Return {| formal_letter := _extract_content message_content (fst a1);
                    legal_arguments := _extract_content message_content (fst a2);
                    supporting_sections := map supporting_section (take 5 rs);
                    relevant_documents := locs |},
          add_log (set_heap (heap s ++ rs) s) (snd a1 ++ snd a2)).
Proof.
  intros Hv Hc Hne Hn Ht.
  set (q := case_title c +:+ " " +:+ incident_summary c +:+ " " +:+ Py.join " " l).
  destruct (RAGFacts.similarity_search_fills_k s index ds q 7 Hv Hc Hne Hn
              ltac:(lia))
    as (rs & Hs & Hlen).
  exists rs. split; [done|]. intros locs context a1 a2.
  assert (Hfresh : Forall2 (fun l d => (heap s ++ rs) !! l = Some d) locs rs).
  { unfold locs. rewrite <- Hlen. apply RAGFacts.fresh_corpus. }
  unfold generate_formal_letter.
  unfold bind at 1. rewrite (join_tags_eq " " c l) by done.
  unfold bind at 1. fold q. rewrite Hs, Hlen. fold locs.
  unfold bind at 1. rewrite (join_tags_eq ", " c l) by done.
  unfold bind at 1. rewrite (format_context_eq _ rs) by exact Hfresh.
  fold context.
  unfold bind at 1. rewrite (generate_response_answer _ rs) by exact Hfresh.
  fold a1.
  unfold bind at 1. rewrite (format_context_eq _ rs) by exact Hfresh.
  fold context.
  unfold bind at 1. rewrite (generate_response_answer _ rs) by exact Hfresh.
  fold a2.
  unfold bind at 1.
  rewrite (RAGFacts.mapM_deref_map supporting_section (take 5 locs) (take 5 rs))
    by (by apply Forall2_take).
  unfold ret. by rewrite add_log_app.
Qed.

(** X18: with [tags] set to [None] the letter generator raises
    [TypeError] while building the search query: nothing is searched,
    generated or logged. *)
Theorem generate_formal_letter_no_tags (c : case_data) (s : state) :
  tags c = None ->
  generate_formal_letter message_content c s
  = (Raise (TypeError "can only join an iterable"), s).
Proof.
  intros Ht. unfold generate_formal_letter. unfold bind at 1.
  unfold join_tags. by rewrite Ht.
Qed.

(** X19: on a store that was never built nor loaded the letter generator
    passes on the [ValueError] of the search; nothing is generated or
    logged. *)
Theorem generate_formal_letter_not_ready (c : case_data) (l : list string)
    (s : state) :
  tags c = Some l -> vector_store s = None ->
  generate_formal_letter message_content c s
  = (Raise (ValueError "Vector store not initialized"), s).
Proof.
  intros Ht Hv. unfold generate_formal_letter.
  unfold bind at 1. rewrite (join_tags_eq " " c l) by done.
  unfold bind at 1. by rewrite RAGFacts.similarity_search_uninitialized.
Qed.

(** X20: over a built store the letter generator always returns, whatever
    the language model does: with seven relevant documents, which are new
    objects, and five supporting sections, the lines ["title (Page n)"]
    of the first five of them; the index, the corpus and the disk are
    left as they were. *)
Theorem generate_formal_letter_returns (s : state) (index : Faiss.IndexFlatL2)
    (ds : list document) (c : case_data) (l : list string) :
  vector_store s = Some index -> corpus s ds ->
  ds <> [] -> Faiss.ntotal index = length ds -> tags c = Some l ->
  exists data s' rs,
    generate_formal_letter message_content c s = (Return data, s')
    /\ length (relevant_documents data) = 7%nat
    /\ Forall2 (fun l d => heap s' !! l = Some d) (relevant_documents data) rs
    /\ Forall (fun l => (length (heap s) <= l)%nat) (relevant_documents data)
    /\ supporting_sections data = map supporting_section (take 5 rs)
    /\ length (supporting_sections data) = 5%nat
    /\ vector_store s' = vector_store s /\ documents s' = documents s
    /\ files s' = files s.
Proof.
  intros Hv Hc Hne Hn Ht.
  destruct (generate_formal_letter_built s index ds c l Hv Hc Hne Hn Ht)
    as (rs & Hlen & Heq).
  cbv zeta in Heq. eexists _, _, rs. split; [exact Heq|]. cbn -[seq take].
  repeat split; try done.
  - rewrite <- Hlen. apply RAGFacts.fresh_corpus.
  - apply Forall_forall. intros x Hx. apply elem_of_seq in Hx. lia.
  - rewrite length_map, length_take. lia.
Qed.

(** X21: when the language model raises on every prompt, the letter
    generator over a built store still returns normally: the letter and
    the arguments are both the string ["Error generating response"], and
    the two failures are only logged. *)
Theorem generate_formal_letter_model_down (s : state)
    (index : Faiss.IndexFlatL2) (ds : list document) (c : case_data)
    (l : list string) :
  (forall prompt, exists e, llm_invoke prompt = inl e) ->
  vector_store s = Some index -> corpus s ds ->
  ds <> [] -> Faiss.ntotal index = length ds -> tags c = Some l ->
  exists data s' e1 e2,
    generate_formal_letter message_content c s = (Return data, s')
    /\ formal_letter data = "Error generating response"
    /\ legal_arguments data = "Error generating response"
    /\ log s' = log s
                ++ [(ERROR, "Error generating LLM response: " +:+ str_exn e1);
                    (ERROR, "Error generating LLM response: " +:+ str_exn e2)].
Proof.
  intros Hdown Hv Hc Hne Hn Ht.
  destruct (generate_formal_letter_built s index ds c l Hv Hc Hne Hn Ht)
    as (rs & Hlen & Heq).
  cbv zeta in Heq. rewrite Heq. clear Heq. unfold answer_of.
  set (p1 := prompt_of _ (letter_prompt _ _ _)).
  set (p2 := prompt_of _ (arguments_prompt _ _)).
  destruct (Hdown p1) as [e1 ->]. destruct (Hdown p2) as [e2 ->].
  eexists _, _, e1, e2. split; [reflexivity|]. cbn -[seq take]. done.
Qed.

(** X22: when the language model answers, the letter is the [content] of
    its answer to the letter prompt wrapped in the template of
    [generate_response]: the model reads the retrieved chunks twice, in
    full in the outer template and cut to 500 characters inside the
    letter prompt.  Nothing is logged. *)
Theorem generate_formal_letter_prompt (s : state) (index : Faiss.IndexFlatL2)
    (ds : list document) (c : case_data) (l : list string) :
  (forall prompt, exists r, llm_invoke prompt = inr r) ->
  vector_store s = Some index -> corpus s ds ->
  ds <> [] -> Faiss.ntotal index = length ds -> tags c = Some l ->
  exists data s' rs r,
    generate_formal_letter message_content c s = (Return data, s')
    /\ Forall2 (fun l d => heap s' !! l = Some d) (relevant_documents data) rs
    /\ llm_invoke
         (prompt_of (Py.join (nl +:+ nl) (map context_block rs))
            (letter_prompt c (Py.join ", " l)
               (Py.join (nl +:+ nl) (map format_block rs))))
       = inr r
    /\ formal_letter data = message_content r
    /\ log s' = log s.
Proof.
  intros Hup Hv Hc Hne Hn Ht.
  destruct (generate_formal_letter_built s index ds c l Hv Hc Hne Hn Ht)
    as (rs & Hlen & Heq).
  cbv zeta in Heq. rewrite Heq. clear Heq. unfold answer_of.
  set (p1 := prompt_of _ (letter_prompt _ _ _)).
  set (p2 := prompt_of _ (arguments_prompt _ _)).
  destruct (Hup p1) as [r1 Hr1]. destruct (Hup p2) as [r2 Hr2].
  rewrite Hr1, Hr2.
  eexists _, _, rs, r1. split; [reflexivity|]. cbn -[seq take].
  split; [rewrite <- Hlen; apply RAGFacts.fresh_corpus|].
  split; [exact Hr1|]. split; [done|]. by rewrite !app_nil_r.
Qed.

Lemma substring_prefix n s :
  String.prefix (substring 0 n s) s = true
  /\ String.length (substring 0 n s) = Nat.min n (String.length s).
Proof.
  revert n. induction s as [|c s IH]; intros [|n]; simpl; try done.
  destruct (IH n) as [Hp Hl]. rewrite Hp, Hl.
  split; [|done]. by destruct (ascii_dec c c).
Qed.

(** X23: a block of the letter context shows at most 500 characters of
    its chunk: the excerpt is the prefix of the content of length
    [min 500 (len content)], and ["..."] follows it whether or not
    anything was cut. *)
Theorem format_block_excerpt (d : document) :
  exists excerpt,
    format_block d = "Section: " +:+ section_title d +:+ nl +:+ "Content: "
                     +:+ excerpt +:+ "..."
    /\ String.prefix excerpt (content d) = true
    /\ String.length excerpt = Nat.min 500 (String.length (content d))
    /\ ((String.length (content d) <= 500)%nat -> excerpt = content d).
Proof.
  exists (substring 0 500 (content d)).
  destruct (substring_prefix 500 (content d)) as [Hp Hl].
  repeat split; try done.
  intros Hle. by apply SplitterFacts.substring_whole.
Qed.

End Facts.
End LetterFacts.

(** ** The application *)
Module MainFacts.
Import RAG Main.
Section Facts.
Context {E : External}.
Variable fitz_open : string -> exn + list string.
Variable message_content : response -> string.
Variable stored_case : Type.
Variable time : Type.
Variable insert_one :
  LetterGenerator.case_data -> LetterGenerator.letter_data -> time -> exn + string.
Variable find_one : string -> exn + option stored_case.
Variable http_str : Z -> string -> string.

(** One step of a computation: it returns or it raises. *)
Ltac step :=
  unfold bind at 1;
  match goal with
  | |- context [match ?m ?s with (_, _) => _ end] =>
      let a := fresh "a" in let e := fresh "e" in let s' := fresh "s" in
      destruct (m s) as [[a|e] s']
  end.

(** X24: start-up never raises: whatever the disk holds and whatever
    fails on the way, it ends with [rag_system] set, and with
    [letter_generator] either set or as it was. *)
Theorem initialize_rag_system_returns (g : globals) (s : state) :
  exists g' s',
    initialize_rag_system fitz_open g s = (Return g', s')
    /\ rag_system g' = true
    /\ (letter_generator g' = true \/ letter_generator g' = letter_generator g).
Proof.
  unfold initialize_rag_system, try_except.
  match goal with
  | |- context [match ?m s with (_, _) => _ end] =>
      assert (H : forall g1 s1, m s = (Return g1, s1) ->
                  rag_system g1 = true
                  /\ (letter_generator g1 = true
                      \/ letter_generator g1 = letter_generator g));
      [|destruct (m s) as [[g1|e] s1]]
  end.
  - intros g1 s1. unfold bind at 1. unfold new_rag_system, bind at 1.
    unfold set_vector_store, set_documents, modify at 1 2.
    step; [|done]. destruct a; simpl.
    + unfold ret. intros Hr. inversion Hr; subst. auto.
    + step; [|done]. step; [|done]. destruct a0; simpl.
      * step; [|done]. step; [|done]. step; [|done]. step; [|done].
        step; [|done]. unfold ret. intros Hr. inversion Hr; subst. auto.
      * step; [|done]. unfold ret. intros Hr. inversion Hr; subst. auto.
  - destruct (H g1 s1 eq_refl) as [H1 H2]. eauto.
  - unfold bind, logger, modify, ret. simpl. eexists _, _. eauto.
Qed.

Lemma new_rag_system_eq s :
  new_rag_system s
  = (Return tt,
     {| vector_store := None; documents := []; heap := heap s;
        dirs := dirs s; files := files s; log := log s |}).
Proof. reflexivity. Qed.

(** X25: when the two artifacts of a saved store are on the disk,
    start-up loads them into a new instance and sets both globals; the
    PDF is not looked at and nothing is written. *)
Theorem initialize_rag_system_loads (g : globals) (s : state)
    (index : Faiss.IndexFlatL2) (ds : list document) :
  files s !! "vector_store/faiss_index" = Some (IndexFile (Some index)) ->
  files s !! "vector_store/documents.pkl" = Some (PickleFile ds) ->
  exists s',
    initialize_rag_system fitz_open g s
    = (Return {| rag_system := true; letter_generator := true |}, s')
    /\ vector_store s' = Some index /\ corpus s' ds
    /\ files s' = files s /\ dirs s' = dirs s
    /\ log s' = log s ++ [(INFO, "Vector store loaded from vector_store")].
Proof.
  intros Hi Hp. unfold initialize_rag_system, try_except.
  unfold bind at 1. rewrite new_rag_system_eq.
  unfold bind at 1.
  rewrite (RAGFacts.load_vector_store_eq _ (Some index) ds "vector_store")
    by done.
  simpl. eexists. split; [reflexivity|]. simpl.
  repeat split. apply RAGFacts.fresh_corpus.
Qed.

Lemma path_exists_eq s path :
  path_exists path s
  = (Return (bool_decide (is_Some (files s !! path))
             || bool_decide (path ∈ dirs s)), s).
Proof. reflexivity. Qed.

(** X26: with no index artifact and no PDF on the disk, start-up ends
    with [rag_system] set and [letter_generator] unset, over an empty
    store; from then on every request to generate a letter is answered
    with status 503, whatever it carries. *)
Theorem initialize_rag_system_nothing (s : state) :
  (forall index,
     files s !! "vector_store/faiss_index" <> Some (IndexFile index)) ->
  files s !! pdf_path = None -> pdf_path ∉ dirs s ->
  exists s',
    initialize_rag_system fitz_open
      {| rag_system := false; letter_generator := false |} s
    = (Return {| rag_system := true; letter_generator := false |}, s')
    /\ vector_store s' = None /\ documents s' = [] /\ files s' = files s
    /\ forall now case_input s2,
         generate_letter message_content time insert_one
           {| rag_system := true; letter_generator := false |} now case_input s2
         = (HTTPException 503 "RAG system not initialized", s2).
Proof.
  intros Hno Hpdf Hdir. unfold initialize_rag_system, try_except.
  unfold bind at 1. rewrite new_rag_system_eq.
  unfold bind at 1.
  destruct (StoreFacts.load_without_index
              {| vector_store := None; documents := []; heap := heap s;
                 dirs := dirs s; files := files s; log := log s |}
              "vector_store" Hno) as [msg ->].
  simpl. unfold bind at 1. unfold logger at 1, modify at 1.
  unfold bind at 1. rewrite path_exists_eq. simpl. rewrite Hpdf.
  rewrite bool_decide_eq_false_2 by (intros [? ?]; done).
  rewrite bool_decide_eq_false_2 by done. simpl.
  eexists. split; [reflexivity|]. simpl. repeat split.
Qed.

Lemma extract_sections_eq s bytes document :
  files s !! pdf_path = Some (OtherFile bytes) ->
  fitz_open bytes = inr document ->
  extract_sections fitz_open pdf_path s
  = (Return (PDFProcessor.extract_sections document),
     LetterGenerator.add_log s
       [(INFO, "Successfully loaded PDF: " +:+ pdf_path)]).
Proof.
  intros Hf Ho. unfold extract_sections. unfold bind at 1.
  unfold load_pdf. unfold bind at 1. unfold gets at 1.
  rewrite Hf, Ho. reflexivity.
Qed.

(** X27: with no saved store but the PDF on the disk, and sections that
    yield at least one chunk, start-up builds the store from the PDF,
    saves it and sets both globals; and every later start-up that finds
    the saved files loads the same index and the same corpus, without
    reading the PDF again. *)
Theorem initialize_rag_system_builds (g : globals) (s : state)
    (bytes : string) (document : list string) :
  (forall index,
     files s !! "vector_store/faiss_index" <> Some (IndexFile index)) ->
  files s !! "vector_store" = None ->
  files s !! pdf_path = Some (OtherFile bytes) ->
  fitz_open bytes = inr document ->
  chunks_of (PDFProcessor.extract_sections document) <> [] ->
  let cs := chunks_of (PDFProcessor.extract_sections document) in
  exists s1 index,
    initialize_rag_system fitz_open g s
    = (Return {| rag_system := true; letter_generator := true |}, s1)
    /\ vector_store s1 = Some index
    /\ Faiss.xb index = map (fun d => encode (content d)) cs
    /\ corpus s1 cs
    /\ forall g2 s2, files s2 = files s1 ->
         exists s3,
           initialize_rag_system fitz_open g2 s2
           = (Return {| rag_system := true; letter_generator := true |}, s3)
           /\ vector_store s3 = Some index /\ corpus s3 cs.
Proof.
  intros Hno Hfree Hpdf Hopen Hne cs.
  unfold initialize_rag_system at 1. unfold try_except.
  unfold bind at 1. rewrite new_rag_system_eq.
  unfold bind at 1.
  destruct (StoreFacts.load_without_index
              {| vector_store := None; documents := []; heap := heap s;
                 dirs := dirs s; files := files s; log := log s |}
              "vector_store" Hno) as [msg ->].
  simpl. unfold bind at 1. unfold logger at 1, modify at 1.
  unfold bind at 1. rewrite path_exists_eq. simpl. rewrite Hpdf.
  rewrite bool_decide_eq_true_2 by eauto. simpl.
  unfold bind at 1. rewrite (extract_sections_eq _ bytes document) by done.
  unfold bind at 1. rewrite StoreFacts.process_documents_eq. fold cs.
  unfold bind at 1.
  rewrite (StoreFacts.create_vector_store_eq _ cs)
    by (done || apply RAGFacts.fresh_corpus).
  unfold bind at 1.
  rewrite (RAGFacts.save_vector_store_eq _ _ cs "vector_store")
    by (done || apply RAGFacts.fresh_corpus).
  simpl. eexists _, _. split; [reflexivity|]. simpl.
  split; [reflexivity|]. split; [by rewrite map_map|].
  split; [apply RAGFacts.fresh_corpus|].
  intros g2 s2 Hs2.
  unfold initialize_rag_system, try_except.
  unfold bind at 1. rewrite new_rag_system_eq.
  unfold bind at 1.
  rewrite (RAGFacts.load_vector_store_eq _
             (Some {| Faiss.xb := map encode (map content cs) |}) cs
             "vector_store").
  - simpl. eexists. split; [reflexivity|]. simpl.
    split; [done|]. apply RAGFacts.fresh_corpus.
  - simpl. rewrite Hs2. by rewrite lookup_insert_ne, lookup_insert_eq.
  - simpl. rewrite Hs2. by rewrite lookup_insert_eq.
Qed.

(** X28: with both globals set, a built store, the language model raising
    on every prompt and the case collection accepting the insertion, the
    request to generate a letter is answered as a success whose letter and
    arguments are both the string ["Error generating response"]. *)
Theorem generate_letter_model_down (s : state) (index : Faiss.IndexFlatL2)
    (ds : list document) (c : LetterGenerator.case_data) (l : list string)
    (now : time) :
  (forall prompt, exists e, llm_invoke prompt = inl e) ->
  (forall c d t, exists id, insert_one c d t = inr id) ->
  vector_store s = Some index -> corpus s ds ->
  ds <> [] -> Faiss.ntotal index = length ds ->
  LetterGenerator.tags c = Some l ->
  exists r s' gl,
    generate_letter message_content time insert_one
      {| rag_system := true; letter_generator := true |} now c s
    = (Answer r, s')
    /\ success time r = true /\ letter time r = Some gl
    /\ gl_formal_letter time gl = "Error generating response"
    /\ gl_legal_arguments time gl = "Error generating response".
Proof.
  intros Hdown Hins Hv Hc Hne Hn Ht. unfold generate_letter. simpl.
  destruct (LetterFacts.generate_formal_letter_built message_content
              s index ds c l Hv Hc Hne Hn Ht) as (rs & Hlen & Heq).
  cbv zeta in Heq. unfold bind at 1. rewrite Heq. clear Heq.
  unfold LetterGenerator.answer_of.
  set (p1 := prompt_of _ (LetterGenerator.letter_prompt _ _ _)).
  set (p2 := prompt_of _ (LetterGenerator.arguments_prompt _ _)).
  destruct (Hdown p1) as [e1 ->]. destruct (Hdown p2) as [e2 ->].
  unfold bind at 1. unfold save_case.
  match goal with
  | |- context [insert_one ?a ?b ?t] => destruct (Hins a b t) as [id ->]
  end.
  unfold ret. eexists _, _, _. split; [reflexivity|]. cbn -[seq take]. done.
Qed.

(** X29: with both globals set, a request whose [tags] is [None] is
    answered with status 500 and the text of the [TypeError] as detail;
    the failure is logged and the store is not touched. *)
Theorem generate_letter_no_tags (s : state) (c : LetterGenerator.case_data)
    (now : time) :
  LetterGenerator.tags c = None ->
  generate_letter message_content time insert_one
    {| rag_system := true; letter_generator := true |} now c s
  = (HTTPException 500 "can only join an iterable",
     LetterGenerator.add_log s
       [(ERROR, "Error generating letter: can only join an iterable")]).
Proof.
  intros Ht. unfold generate_letter. simpl.
  unfold bind at 1. unfold LetterGenerator.generate_formal_letter.
  unfold bind at 1. unfold LetterGenerator.join_tags. rewrite Ht.
  reflexivity.
Qed.

(** X30: the endpoint that retrieves a case never answers 404: the
    [HTTPException] raised at line 146 for a missing case is caught by
    the handler of line 148 and answered as status 500, like every other
    failure; a case that is found is returned as it is. *)
Theorem get_case_details_status (case_id : string) (s : state) :
  (exists case, find_one case_id = inr (Some case)
                /\ get_case_details stored_case find_one http_str case_id s
                   = (Answer case, s))
  \/ (exists detail,
        get_case_details stored_case find_one http_str case_id s
        = (HTTPException 500 detail,
           LetterGenerator.add_log s
             [(ERROR, "Error retrieving case: " +:+ detail)])
        /\ (find_one case_id = inr None ->
            detail = http_str 404 "Case not found")).
Proof.
  unfold get_case_details, get_case.
  destruct (find_one case_id) as [e|[case|]].
  - right. eexists. split; [reflexivity|]. done.
  - left. eauto.
  - right. eexists. split; [reflexivity|]. done.
Qed.

End Facts.
End MainFacts.

(** ** The further properties on the small world *)
Module StoreWitness.
Import RAG.
#[local] Existing Instance Toy.collaborators.

Lemma create_vector_store_aligned_witness :
  let s := Toy.built in
  let ds := [Toy.chunk0; Toy.chunk1] in
  exists index s',
    create_vector_store s = (Return tt, s')
    /\ vector_store s' = Some index
    /\ Faiss.xb index = map (fun d => encode (content d)) ds
    /\ Faiss.ntotal index = length (documents s')
    /\ documents s' = documents s /\ heap s' = heap s /\ files s' = files s.
Proof.
  intros s ds.
  apply (StoreFacts.create_vector_store_aligned (E := Toy.collaborators) s ds);
    [ exact ToyFacts.built_corpus
    | discriminate ].
Defined.

Lemma create_vector_store_empty_witness :
  let s := Toy.fresh in
  create_vector_store s
  = (Raise (ValueError "No documents processed. Call process_documents first."), s).
Proof.
  intros s.
  apply (StoreFacts.create_vector_store_empty (E := Toy.collaborators) s); reflexivity.
Defined.

Lemma ingest_then_build_witness :
  let sections := Toy.sections in
  let s := Toy.fresh in
  exists index s',
    (process_documents sections ;; create_vector_store) s = (Return tt, s')
    /\ vector_store s' = Some index
    /\ Faiss.xb index = map (fun d => encode (content d)) (chunks_of sections)
    /\ corpus s' (chunks_of sections).
Proof.
  intros sections s.
  apply (StoreFacts.ingest_then_build (E := Toy.collaborators) sections s); discriminate.
Defined.

Lemma ingest_nothing_witness :
  let sections := ([] : list PDFProcessor.section) in
  let s := Toy.built in
  exists s',
    (process_documents sections ;; create_vector_store) s
    = (Raise (ValueError "No documents processed. Call process_documents first."), s')
    /\ documents s' = [] /\ vector_store s' = vector_store s.
Proof.
  intros sections s.
  apply (StoreFacts.ingest_nothing (E := Toy.collaborators) sections s); reflexivity.
Defined.

Lemma load_vector_store_no_index_witness :
  let s := Toy.fresh in
  let path := "vector_store" in
  exists msg,
    load_vector_store path s
    = (Return false,
       {| vector_store := vector_store s; documents := documents s;
          heap := heap s; dirs := dirs s; files := files s;
          log := log s ++ [(ERROR, "Error loading vector store: " +:+ msg)] |}).
Proof.
  intros s path.
  apply (StoreFacts.load_vector_store_no_index (E := Toy.collaborators) s path); (intros i H; assert (E0 : files s !! (path +:+ "/faiss_index") = None) by reflexivity; rewrite E0 in H; discriminate H).
Defined.

Lemma load_vector_store_half_witness :
  let s := Office.index_only in
  let path := "vector_store" in
  let index := Toy.index in
  exists msg s',
    load_vector_store path s = (Return false, s')
    /\ vector_store s' = Some index
    /\ documents s' = documents s /\ heap s' = heap s
    /\ log s' = log s ++ [(ERROR, "Error loading vector store: " +:+ msg)].
Proof.
  intros s path index.
  apply (StoreFacts.load_vector_store_half (E := Toy.collaborators) s path index);
    [ reflexivity
    | (intros i H; assert (E0 : files s !! (path +:+ "/documents.pkl") = None) by reflexivity; rewrite E0 in H; discriminate H) ].
Defined.

Lemma save_vector_store_frame_witness :
  let s := Toy.built in
  let index := Toy.index in
  let ds := [Toy.chunk0; Toy.chunk1] in
  let path := "vector_store" in
  exists s',
    save_vector_store path s = (Return tt, s')
    /\ files s' !! (path +:+ "/faiss_index") = Some (IndexFile (Some index))
    /\ files s' !! (path +:+ "/documents.pkl") = Some (PickleFile ds)
    /\ (forall p, p <> path +:+ "/faiss_index" -> p <> path +:+ "/documents.pkl" ->
                  files s' !! p = files s !! p)
    /\ vector_store s' = vector_store s /\ documents s' = documents s
    /\ heap s' = heap s.
Proof.
  intros s index ds path.
  apply (StoreFacts.save_vector_store_frame (E := Toy.collaborators) s index ds path);
    [ reflexivity
    | exact ToyFacts.built_corpus
    | reflexivity ].
Defined.

Lemma save_vector_store_blocked_witness :
  let s := Toy.torn in
  let path := "vector_store/documents.pkl" in
  let f := PickleFile [Toy.chunk0] in
  save_vector_store path s = (Raise (FileExistsError path), s).
Proof.
  intros s path f.
  apply (StoreFacts.save_vector_store_blocked (E := Toy.collaborators) s path f); reflexivity.
Defined.

Lemma save_vector_store_unset_witness :
  let s := snd (process_documents (E := Toy.collaborators) Toy.sections Toy.fresh) in
  let ds := [Toy.chunk0; Toy.chunk1] in
  let path := "vector_store" in
  exists s1,
    save_vector_store path s = (Return tt, s1)
    /\ files s1 !! (path +:+ "/faiss_index") = Some (IndexFile None)
    /\ files s1 !! (path +:+ "/documents.pkl") = Some (PickleFile ds)
    /\ dirs s1 = {[ path ]} ∪ dirs s
    /\ log s1 = log s ++ [(INFO, "Vector store saved to " +:+ path)]
    /\ forall s2, files s2 = files s1 ->
         exists s3,
           load_vector_store path s2 = (Return true, s3)
           /\ vector_store s3 = None /\ corpus s3 ds
           /\ forall query k,
                similarity_search query k s3
                = (Raise (ValueError "Vector store not initialized"), s3).
Proof.
  intros s ds path.
  apply (StoreFacts.save_vector_store_unset (E := Toy.collaborators) s ds path);
    [ reflexivity
    | (repeat constructor)
    | reflexivity ].
Defined.

Lemma similarity_search_at_most_k_witness :
  let s := Toy.built in
  let s' := snd (similarity_search (E := Toy.collaborators) "fraud" 2 Toy.built) in
  let ds := [Toy.chunk0; Toy.chunk1] in
  let query := "fraud" in
  let k := 2%nat in
  let results := [2%nat; 3%nat] in
  (length results <= k)%nat.
Proof.
  intros s s' ds query k results.
  apply (StoreFacts.similarity_search_at_most_k (E := Toy.collaborators) s s' ds query k results);
    [ exact ToyFacts.built_corpus
    | reflexivity ].
Defined.

Lemma similarity_search_nearest_witness :
  let s := Toy.built in
  let index := Toy.index in
  let ds := [Toy.chunk0; Toy.chunk1] in
  let query := "fraud" in
  let k := 1%nat in
  let hits := Faiss.knn index (encode query) k in
  exists rs,
    similarity_search query k s
    = (Return (seq (length (heap s)) (length rs)), set_heap (heap s ++ rs) s)
    /\ length rs = k
    /\ NoDup (map snd hits)
    /\ Forall2 (fun r h => exists (j : nat) d y,
                  snd h = Z.of_nat j /\ ds !! j = Some d
                  /\ Faiss.xb index !! j = Some y
                  /\ fst h = fvec_L2sqr (encode query) y
                  /\ r = with_score (fst h) d) rs hits
    /\ forall (j : nat) y,
         Faiss.xb index !! j = Some y -> Z.of_nat j ∉ map snd hits ->
         Forall (fun h => fst h <= fvec_L2sqr (encode query) y) hits.
Proof.
  intros s index ds query k.
  apply (StoreFacts.similarity_search_nearest (E := Toy.collaborators) s index ds query k);
    [ reflexivity
    | exact ToyFacts.built_corpus
    | reflexivity
    | (simpl; lia) ].
Defined.

Lemma generate_response_returns_witness :
  let s := Toy.built in
  let ds := [Toy.chunk1] in
  let query := "What is fraud?" in
  let context_docs := [1%nat] in
  exists t s',
    generate_response query context_docs s = (Return t, s')
    /\ vector_store s' = vector_store s /\ documents s' = documents s
    /\ heap s' = heap s /\ files s' = files s
    /\ (forall r,
          llm_invoke (prompt_of (Py.join (nl +:+ nl) (map context_block ds)) query)
          = inr r ->
          t = Response r /\ s' = s).
Proof.
  intros s ds query context_docs.
  apply (StoreFacts.generate_response_returns (E := Toy.collaborators) s ds query context_docs); (repeat constructor).
Defined.

End StoreWitness.

Module LetterWitness.
Import RAG LetterGenerator.
#[local] Existing Instance Toy.collaborators.

Lemma generate_formal_letter_no_tags_witness :
  let message_content := Office.message_content in
  let c := Office.case_without_tags in
  let s := Toy.built in
  generate_formal_letter message_content c s
  = (Raise (TypeError "can only join an iterable"), s).
Proof.
  intros message_content c s.
  apply (LetterFacts.generate_formal_letter_no_tags (E := Toy.collaborators) message_content c s); reflexivity.
Defined.

Lemma generate_formal_letter_not_ready_witness :
  let message_content := Office.message_content in
  let c := Office.case in
  let l := ["wages"; "fraud"] in
  let s := Toy.fresh in
  generate_formal_letter message_content c s
  = (Raise (ValueError "Vector store not initialized"), s).
Proof.
  intros message_content c l s.
  apply (LetterFacts.generate_formal_letter_not_ready (E := Toy.collaborators) message_content c l s);
    [ reflexivity
    | reflexivity ].
Defined.

Lemma generate_formal_letter_returns_witness :
  let message_content := Office.message_content in
  let s := Toy.built in
  let index := Toy.index in
  let ds := [Toy.chunk0; Toy.chunk1] in
  let c := Office.case in
  let l := ["wages"; "fraud"] in
  exists data s' rs,
    generate_formal_letter message_content c s = (Return data, s')
    /\ length (relevant_documents data) = 7%nat
    /\ Forall2 (fun l d => heap s' !! l = Some d) (relevant_documents data) rs
    /\ Forall (fun l => (length (heap s) <= l)%nat) (relevant_documents data)
    /\ supporting_sections data = map supporting_section (take 5 rs)
    /\ length (supporting_sections data) = 5%nat
    /\ vector_store s' = vector_store s /\ documents s' = documents s
    /\ files s' = files s.
Proof.
  intros message_content s index ds c l.
  apply (LetterFacts.generate_formal_letter_returns (E := Toy.collaborators) message_content s index ds c l);
    [ reflexivity
    | exact ToyFacts.built_corpus
    | discriminate
    | reflexivity
    | reflexivity ].
Defined.

Lemma generate_formal_letter_model_down_witness :
  let message_content := Office.message_content in
  let s := Toy.built in
  let index := Toy.index in
  let ds := [Toy.chunk0; Toy.chunk1] in
  let c := Office.case in
  let l := ["wages"; "fraud"] in
  exists data s' e1 e2,
    generate_formal_letter message_content c s = (Return data, s')
    /\ formal_letter data = "Error generating response"
    /\ legal_arguments data = "Error generating response"
    /\ log s' = log s
                ++ [(ERROR, "Error generating LLM response: " +:+ str_exn e1);
                    (ERROR, "Error generating LLM response: " +:+ str_exn e2)].
Proof.
  intros message_content s index ds c l.
  apply (LetterFacts.generate_formal_letter_model_down (E := Toy.collaborators) message_content s index ds c l);
    [ (intros prompt; eexists; reflexivity)
    | reflexivity
    | exact ToyFacts.built_corpus
    | discriminate
    | reflexivity
    | reflexivity ].
Defined.

End LetterWitness.

Module AnsweringWitness.
Import RAG LetterGenerator.
#[local] Existing Instance Office.answering.

Lemma generate_formal_letter_prompt_witness :
  let message_content := Office.message_content in
  let s := Office.answering_built in
  let index := Office.answering_index in
  let ds := [Toy.chunk0; Toy.chunk1] in
  let c := Office.case in
  let l := ["wages"; "fraud"] in
  exists data s' rs r,
    generate_formal_letter message_content c s = (Return data, s')
    /\ Forall2 (fun l d => heap s' !! l = Some d) (relevant_documents data) rs
    /\ llm_invoke
         (prompt_of (Py.join (nl +:+ nl) (map context_block rs))
            (letter_prompt c (Py.join ", " l)
               (Py.join (nl +:+ nl) (map format_block rs))))
       = inr r
    /\ formal_letter data = message_content r
    /\ log s' = log s.
Proof.
  intros message_content s index ds c l.
  apply (LetterFacts.generate_formal_letter_prompt (E := Office.answering) message_content s index ds c l);
    [ (intros prompt; eexists; reflexivity)
    | reflexivity
    | (repeat constructor)
    | discriminate
    | reflexivity
    | reflexivity ].
Defined.

End AnsweringWitness.

Module MainWitness.
Import RAG Main.
#[local] Existing Instance Toy.collaborators.

Lemma initialize_rag_system_loads_witness :
  let fitz_open := Office.fitz_open in
  let g := {| rag_system := false; letter_generator := false |} in
  let s := Toy.torn in
  let index := Toy.index in
  let ds := [Toy.chunk0] in
  exists s',
    initialize_rag_system fitz_open g s
    = (Return {| rag_system := true; letter_generator := true |}, s')
    /\ vector_store s' = Some index /\ corpus s' ds
    /\ files s' = files s /\ dirs s' = dirs s
    /\ log s' = log s ++ [(INFO, "Vector store loaded from vector_store")].
Proof.
  intros fitz_open g s index ds.
  apply (MainFacts.initialize_rag_system_loads (E := Toy.collaborators) fitz_open g s index ds);
    [ reflexivity
    | reflexivity ].
Defined.

Lemma initialize_rag_system_nothing_witness :
  let fitz_open := Office.fitz_open in
  let message_content := Office.message_content in
  let time := Z in
  let insert_one := Office.insert_one in
  let s := Toy.fresh in
  exists s',
    initialize_rag_system fitz_open
      {| rag_system := false; letter_generator := false |} s
    = (Return {| rag_system := true; letter_generator := false |}, s')
    /\ vector_store s' = None /\ documents s' = [] /\ files s' = files s
    /\ forall now case_input s2,
         generate_letter message_content time insert_one
           {| rag_system := true; letter_generator := false |} now case_input s2
         = (HTTPException 503 "RAG system not initialized", s2).
Proof.
  intros fitz_open message_content time insert_one s.
  apply (MainFacts.initialize_rag_system_nothing (E := Toy.collaborators) fitz_open message_content time insert_one s);
    [ (intros i H; assert (E0 : files s !! "vector_store/faiss_index" = None) by reflexivity; rewrite E0 in H; discriminate H)
    | reflexivity
    | (apply not_elem_of_empty) ].
Defined.

Lemma initialize_rag_system_builds_witness :
  let fitz_open := Office.fitz_open in
  let g := {| rag_system := false; letter_generator := false |} in
  let s := Office.with_pdf in
  let bytes := "%PDF" in
  let document := Toy.document in
  let cs := chunks_of (PDFProcessor.extract_sections document) in
  exists s1 index,
    initialize_rag_system fitz_open g s
    = (Return {| rag_system := true; letter_generator := true |}, s1)
    /\ vector_store s1 = Some index
    /\ Faiss.xb index = map (fun d => encode (content d)) cs
    /\ corpus s1 cs
    /\ forall g2 s2, files s2 = files s1 ->
         exists s3,
           initialize_rag_system fitz_open g2 s2
           = (Return {| rag_system := true; letter_generator := true |}, s3)
           /\ vector_store s3 = Some index /\ corpus s3 cs.
Proof.
  intros fitz_open g s bytes document.
  apply (MainFacts.initialize_rag_system_builds (E := Toy.collaborators) fitz_open g s bytes document);
    [ (intros i H; assert (E0 : files s !! "vector_store/faiss_index" = None) by reflexivity; rewrite E0 in H; discriminate H)
    | reflexivity
    | reflexivity
    | reflexivity
    | discriminate ].
Defined.

Lemma generate_letter_model_down_witness :
  let message_content := Office.message_content in
  let time := Z in
  let insert_one := Office.insert_one in
  let s := Toy.built in
  let index := Toy.index in
  let ds := [Toy.chunk0; Toy.chunk1] in
  let c := Office.case in
  let l := ["wages"; "fraud"] in
  let now := 0 in
  exists r s' gl,
    generate_letter message_content time insert_one
      {| rag_system := true; letter_generator := true |} now c s
    = (Answer r, s')
    /\ success time r = true /\ letter time r = Some gl
    /\ gl_formal_letter time gl = "Error generating response"
    /\ gl_legal_arguments time gl = "Error generating response".
Proof.
  intros message_content time insert_one s index ds c l now.
  apply (MainFacts.generate_letter_model_down (E := Toy.collaborators) message_content time insert_one s index ds c l now);
    [ (intros prompt; eexists; reflexivity)
    | (intros c0 d0 t0; eexists; reflexivity)
    | reflexivity
    | exact ToyFacts.built_corpus
    | discriminate
    | reflexivity
    | reflexivity ].
Defined.

Lemma generate_letter_no_tags_witness :
  let message_content := Office.message_content in
  let time := Z in
  let insert_one := Office.insert_one in
  let s := Toy.built in
  let c := Office.case_without_tags in
  let now := 0 in
  generate_letter message_content time insert_one
    {| rag_system := true; letter_generator := true |} now c s
  = (HTTPException 500 "can only join an iterable",
     LetterGenerator.add_log s
       [(ERROR, "Error generating letter: can only join an iterable")]).
Proof.
  intros message_content time insert_one s c now.
  apply (MainFacts.generate_letter_no_tags (E := Toy.collaborators) message_content time insert_one s c now); reflexivity.
Defined.

End MainWitness.
